(** * Umbra: shader-variable binding and device-state mirror

    A shallow embedding of the parts of the Umbra WebGL wrapper that talk to
    the graphics device: [Attribute], the [Uniform] leaf classes,
    [Texture2D] and the [RenderingContext] property set.

    The device ([WebGL2RenderingContext]) is external to the repository.  It
    is modelled as a register file read by the query entry points together
    with the log of every entry point the wrapper has invoked, in program
    order.  Methods of the wrapper are computations in the monad [GL]: they
    take the device, return a completion (a value or a thrown [Error]) and
    the device afterwards.  Objects ([this]) are passed and returned
    explicitly. *)

From Stdlib Require Import ZArith List Bool Lia String.
From stdpp Require Import base option gmap strings.

Open Scope Z_scope.

(** ** Device constants (src/webgl/WebGLConstant.ts) *)

Module WebGLConstant.
Definition ACTIVE_TEXTURE : Z := 0x84e0.
Definition BLEND : Z := 0x0be2.
Definition BLEND_COLOR : Z := 0x8005.
Definition BLEND_DST_ALPHA : Z := 0x80ca.
Definition BLEND_DST_RGB : Z := 0x80c8.
Definition BLEND_EQUATION_ALPHA : Z := 0x883d.
Definition BLEND_EQUATION_RGB : Z := 0x8009.
Definition BLEND_SRC_ALPHA : Z := 0x80cb.
Definition BLEND_SRC_RGB : Z := 0x80c9.
Definition COLOR_CLEAR_VALUE : Z := 0x0c22.
Definition COLOR_WRITEMASK : Z := 0x0c23.
Definition CULL_FACE : Z := 0x0b44.
Definition CULL_FACE_MODE : Z := 0x0b45.
Definition DEPTH_CLEAR_VALUE : Z := 0x0b73.
Definition DEPTH_FUNC : Z := 0x0b74.
Definition DEPTH_RANGE : Z := 0x0b70.
Definition DEPTH_TEST : Z := 0x0b71.
Definition DEPTH_WRITEMASK : Z := 0x0b72.
Definition DITHER : Z := 0x0bd0.
Definition FRAGMENT_SHADER_DERIVATIVE_HINT : Z := 0x8b8b.
Definition FRONT_FACE : Z := 0x0b46.
Definition GENERATE_MIPMAP_HINT : Z := 0x8192.
Definition LINE_WIDTH : Z := 0x0b21.
Definition PACK_ALIGNMENT : Z := 0x0d05.
Definition PACK_ROW_LENGTH : Z := 0x0d02.
Definition PACK_SKIP_PIXELS : Z := 0x0d04.
Definition PACK_SKIP_ROWS : Z := 0x0d03.
Definition POLYGON_OFFSET_FACTOR : Z := 0x8038.
Definition POLYGON_OFFSET_FILL : Z := 0x8037.
Definition POLYGON_OFFSET_UNITS : Z := 0x2a00.
Definition RASTERIZER_DISCARD : Z := 0x8c89.
Definition SAMPLE_ALPHA_TO_COVERAGE : Z := 0x809e.
Definition SAMPLE_COVERAGE : Z := 0x80a0.
Definition SAMPLE_COVERAGE_INVERT : Z := 0x80ab.
Definition SAMPLE_COVERAGE_VALUE : Z := 0x80aa.
Definition SCISSOR_BOX : Z := 0x0c10.
Definition SCISSOR_TEST : Z := 0x0c11.
Definition STENCIL_BACK_FAIL : Z := 0x8801.
Definition STENCIL_BACK_FUNC : Z := 0x8800.
Definition STENCIL_BACK_PASS_DEPTH_FAIL : Z := 0x8802.
Definition STENCIL_BACK_PASS_DEPTH_PASS : Z := 0x8803.
Definition STENCIL_BACK_REF : Z := 0x8ca3.
Definition STENCIL_BACK_VALUE_MASK : Z := 0x8ca4.
Definition STENCIL_BACK_WRITEMASK : Z := 0x8ca5.
Definition STENCIL_CLEAR_VALUE : Z := 0x0b91.
Definition STENCIL_FAIL : Z := 0x0b94.
Definition STENCIL_FUNC : Z := 0x0b92.
Definition STENCIL_PASS_DEPTH_FAIL : Z := 0x0b95.
Definition STENCIL_PASS_DEPTH_PASS : Z := 0x0b96.
Definition STENCIL_REF : Z := 0x0b97.
Definition STENCIL_TEST : Z := 0x0b90.
Definition STENCIL_VALUE_MASK : Z := 0x0b93.
Definition STENCIL_WRITEMASK : Z := 0x0b98.
Definition TEXTURE0 : Z := 0x84c0.
Definition UNPACK_ALIGNMENT : Z := 0x0cf5.
Definition UNPACK_COLORSPACE_CONVERSION_WEBGL : Z := 0x9243.
Definition UNPACK_FLIP_Y_WEBGL : Z := 0x9240.
Definition UNPACK_IMAGE_HEIGHT : Z := 0x806e.
Definition UNPACK_PREMULTIPLY_ALPHA_WEBGL : Z := 0x9241.
Definition UNPACK_ROW_LENGTH : Z := 0x0cf2.
Definition UNPACK_SKIP_IMAGES : Z := 0x806d.
Definition UNPACK_SKIP_PIXELS : Z := 0x0cf4.
Definition UNPACK_SKIP_ROWS : Z := 0x0cf3.
Definition VIEWPORT : Z := 0x0ba2.
(* Polygon faces, buffer and texture targets. *)
Definition FRONT : Z := 0x0404.
Definition BACK : Z := 0x0405.
Definition FRONT_AND_BACK : Z := 0x0408.
Definition ARRAY_BUFFER : Z := 0x8892.
Definition TEXTURE_2D : Z := 0x0de1.
(* Test functions. *)
Definition NEVER : Z := 0x0200.
Definition LESS : Z := 0x0201.
Definition ALWAYS : Z := 0x0207.
(* Texel data types. *)
Definition UNSIGNED_BYTE : Z := 0x1401.
Definition FLOAT : Z := 0x1406.
Definition UNSIGNED_INT_2_10_10_10_REV : Z := 0x8368.
(* Texture formats. *)
Definition ALPHA : Z := 0x1906.
Definition RGB : Z := 0x1907.
Definition RGBA : Z := 0x1908.
Definition LUMINANCE : Z := 0x1909.
Definition LUMINANCE_ALPHA : Z := 0x190a.
Definition RGBA4 : Z := 0x8056.
Definition RGB5_A1 : Z := 0x8057.
Definition RGB565 : Z := 0x8d62.
Definition RED : Z := 0x1903.
Definition RGB8 : Z := 0x8051.
Definition RGBA8 : Z := 0x8058.
Definition RGB10_A2 : Z := 0x8059.
Definition SRGB8 : Z := 0x8c41.
Definition SRGB8_ALPHA8 : Z := 0x8c43.
Definition RGBA32F : Z := 0x8814.
Definition RGB32F : Z := 0x8815.
Definition RGBA16F : Z := 0x881a.
Definition RGB16F : Z := 0x881b.
Definition R11F_G11F_B10F : Z := 0x8c3a.
Definition RGB9_E5 : Z := 0x8c3d.
Definition RGBA8UI : Z := 0x8d7c.
Definition RGB8UI : Z := 0x8d7d.
Definition RED_INTEGER : Z := 0x8d94.
Definition RGB_INTEGER : Z := 0x8d98.
Definition RGBA_INTEGER : Z := 0x8d99.
Definition R8 : Z := 0x8229.
Definition RG8 : Z := 0x822b.
Definition R16F : Z := 0x822d.
Definition R32F : Z := 0x822e.
Definition RG16F : Z := 0x822f.
Definition RG32F : Z := 0x8230.
Definition R8UI : Z := 0x8232.
Definition RG8UI : Z := 0x8238.
Definition RG : Z := 0x8227.
Definition RG_INTEGER : Z := 0x8228.
End WebGLConstant.

(** ** Values exchanged with the device *)

(** What a device query hands back to JavaScript: a number (enumerations,
    masks, counts and references are integers), a boolean, a tuple of
    numbers (viewport, scissor box, colour), or [null].  [VNaN] is the
    number NaN, which arithmetic on an answer can produce. *)
Inductive GLValue : Type :=
  | VNum (n : Z)
  | VBool (b : bool)
  | VTuple (l : list Z)
  | VNull
  | VNaN.

(** A JavaScript number handed to the device as data: the 64 bits of its
    IEEE 754 double.  The embedded code passes such numbers on and never
    computes with them. *)
Definition number : Type := Z.

(** Pixel sources for 2D textures ([Texture2DPixelSource]); DOM objects are
    identified by an object id. *)
Inductive Texture2DPixelSource : Type :=
  | ArrayBufferView (bytes : list Z)
  | ImageData (id : Z)
  | HTMLImageElement (id : Z)
  | HTMLCanvasElement (id : Z)
  | HTMLVideoElement (id : Z)
  | ImageBitmap (id : Z).

(** ** Device entry points

    One constructor per entry point of the device that the embedded code
    invokes, with the arguments in the order the code passes them.  An
    argument the code may leave [undefined] is an [option]. *)
Module gl.

Inductive Call : Type :=
  (* queries *)
  | getParameter (pname : Z)
  | isEnabled (cap : Z)
  | getAttribLocation (program : Z) (name : string)
  (* vertex attributes *)
  | enableVertexAttribArray (index : Z)
  | disableVertexAttribArray (index : Z)
  | bindBuffer (target buffer : Z)
  | vertexAttribPointer (index : Z) (size : option Z) (type : option Z)
      (normalized : option bool) (stride offset : option Z)
  | vertexAttribIPointer (index : Z) (size : option Z) (type : option Z)
      (stride offset : option Z)
  (* textures *)
  | activeTexture (texture : Z)
  | bindTexture (target texture : Z)
  | texImage2D_sized (target level internalformat width height border
      format type : Z) (pixels : Texture2DPixelSource)
  | texImage2D_source (target level internalformat format type : Z)
      (source : Texture2DPixelSource)
  (* uniforms *)
  | uniform2fv (location : Z) (data : list number)
      (srcOffset srcLength : option Z)
  | uniform2uiv (location : Z) (data : list number)
      (srcOffset srcLength : option Z)
  | uniform3iv (location : Z) (data : list number)
      (srcOffset srcLength : option Z)
  | uniformMatrix4fv (location : Z) (transpose : bool) (data : list number)
      (srcOffset srcLength : option Z)
  | uniformMatrix4x3fv (location : Z) (transpose : bool) (data : list number)
      (srcOffset srcLength : option Z)
  (* global state *)
  | depthFunc (func : Z)
  | viewport (x y width height : Z)
  | stencilFuncSeparate (face : Z) (func ref mask : GLValue)
  | stencilMaskSeparate (face : Z) (mask : Z).

End gl.

Abbreviation GLCall := gl.Call.

(** Queries read the device; every other entry point is a command. *)
Definition is_query (c : GLCall) : bool :=
  match c with
  | gl.getParameter _ | gl.isEnabled _ | gl.getAttribLocation _ _ => true
  | _ => false
  end.

(** ** The device *)

(** [params] is what [getParameter] and [isEnabled] read, [attribs] what
    [getAttribLocation] reads, and [calls] the entry points invoked so far,
    oldest first. *)
Record Device : Type := mkDevice {
  params : gmap Z GLValue;
  attribs : gmap (Z * string) Z;
  calls : list GLCall
}.

(** Write [v] to the front and/or back register that [face] names. *)
Definition write_face (face front back : Z) (v : GLValue)
    (p : gmap Z GLValue) : gmap Z GLValue :=
  let p1 := if (face =? WebGLConstant.FRONT)
               || (face =? WebGLConstant.FRONT_AND_BACK)
            then <[front := v]> p else p in
  if (face =? WebGLConstant.BACK) || (face =? WebGLConstant.FRONT_AND_BACK)
  then <[back := v]> p1 else p1.

(** Effect of a command on the registers that the modelled queries read
    back, as the WebGL API documents these entry points: the separate
    stencil calls write the registers of the face(s) they name, [depthFunc],
    [viewport] and [activeTexture] write their own register.  The reference
    value is stored as given (the device's clamping to the stencil depth is
    not modelled).  The remaining entry points leave these registers alone. *)
Definition device_effect (c : GLCall) (p : gmap Z GLValue) : gmap Z GLValue :=
  match c with
  | gl.depthFunc f => <[WebGLConstant.DEPTH_FUNC := VNum f]> p
  | gl.viewport x y w h => <[WebGLConstant.VIEWPORT := VTuple [x; y; w; h]]> p
  | gl.activeTexture t => <[WebGLConstant.ACTIVE_TEXTURE := VNum t]> p
  | gl.stencilFuncSeparate face f r m =>
      write_face face WebGLConstant.STENCIL_VALUE_MASK
        WebGLConstant.STENCIL_BACK_VALUE_MASK m
        (write_face face WebGLConstant.STENCIL_REF
           WebGLConstant.STENCIL_BACK_REF r
           (write_face face WebGLConstant.STENCIL_FUNC
              WebGLConstant.STENCIL_BACK_FUNC f p))
  | gl.stencilMaskSeparate face m =>
      write_face face WebGLConstant.STENCIL_WRITEMASK
        WebGLConstant.STENCIL_BACK_WRITEMASK (VNum m) p
  | _ => p
  end.

(** The answer of the device to a query. *)
Definition device_answer (c : GLCall) (d : Device) : GLValue :=
  match c with
  | gl.getParameter pname => default VNull (params d !! pname)
  | gl.isEnabled cap => default (VBool false) (params d !! cap)
  | gl.getAttribLocation program name =>
      VNum (default (-1) (attribs d !! (program, name)))
  | _ => VNull
  end.

(** ** The monad of device computations *)

(** How a method ends: with a value, or with a thrown [Error]. *)
Inductive Completion (A : Type) : Type :=
  | Normal (a : A)
  | Thrown (message : string).
Arguments Normal {A} a.
Arguments Thrown {A} message.

Definition GL (A : Type) : Type := Device -> Completion A * Device.

Definition gl_ret {A} (a : A) : GL A := fun d => (Normal a, d).

Definition gl_bind {A B} (m : GL A) (k : A -> GL B) : GL B :=
  fun d => match m d with
           | (Normal a, d') => k a d'
           | (Thrown e, d') => (Thrown e, d')
           end.

Definition throw {A} (message : string) : GL A := fun d => (Thrown message, d).

(** Invoke an entry point: it is logged, its effect applied, and the
    device's answer returned. *)
Definition invoke (c : GLCall) : GL GLValue :=
  fun d => (Normal (device_answer c d),
            mkDevice (device_effect c (params d)) (attribs d) (calls d ++ [c])).

(** Invoke an entry point for its effect only. *)
Definition command (c : GLCall) : GL unit :=
  gl_bind (invoke c) (fun _ => gl_ret tt).

(** The device once the entry point [c] has been invoked on it. *)
Definition after (c : GLCall) (d : Device) : Device := snd (command c d).

#[export] Instance GL_ret : MRet GL := @gl_ret.
#[export] Instance GL_bind : MBind GL := fun A B k m => gl_bind m k.

(** The entry points invoked by [m] when run on [d]. *)
Definition issued {A} (m : GL A) (d : Device) : list GLCall :=
  drop (length (calls d)) (calls (snd (m d))).

Definition count_queries (l : list GLCall) : nat :=
  length (filter (fun c => is_query c = true) l).

(** A device on which nothing has been set or invoked yet. *)
Definition device0 : Device := mkDevice ∅ ∅ [].

(** Unfold the monad down to pairs. *)
Ltac gl_unfold :=
  unfold mbind, mret, GL_bind, GL_ret, gl_bind, gl_ret, throw, command,
    invoke in *;
  simpl in *.

(** Decide a chain of equality tests on numbers, one test at a time. *)
Ltac case_tests :=
  repeat match goal with
         | |- context [?x =? ?k] =>
             destruct (x =? k) eqn:?; cbn [orb andb negb]; try reflexivity
         end.

(** Split on every [if]. *)
Ltac split_ifs :=
  repeat match goal with
         | |- context [if ?b then _ else _] => destruct b
         end.

(** * Attribute (src/unnamed/part_006) *)

Module Attribute.

(** Modelled from the spec: the [Buffer] resource, whose class is not
    among the sources.  It owns one device handle. *)
Record Buffer : Type := mkBuffer { internal : Z }.

(** Modelled from the spec: [Buffer.bind(target)] binds the resource's
    device handle to the given binding point; no client-side record of the
    current binding is kept, so the device is called every time. *)
Definition Buffer_bind (b : Buffer) (target : Z) : GL unit :=
  command (gl.bindBuffer target (internal b)).

(** Modelled from the spec: [AttributeValue] (types/AttributeValue is not
    among the sources) is the source buffer with the optional
    size/type/normalization/stride/offset descriptor.  [buffer] is the one
    mandatory field; [Attribute.value] tests for its presence. *)
Record AttributeValue : Type := mkAttributeValue {
  buffer : Buffer;
  size : option Z;
  type : option Z;
  normalized : option bool;
  stride : option Z;
  offset : option Z
}.

(** Modelled from the spec: a [Program] owns the device handle of the linked
    program ([program.internal]); its class is not among the sources. *)
Record Program : Type := mkProgram { program_internal : Z }.

(** The introspection record the device reports for an active attribute. *)

Record WebGLActiveInfo : Type := mkActiveInfo {
  name : string;
  info_size : Z;
  info_type : Z
}.

(** The fields of an [Attribute]; a cache that is [None] is [undefined]. *)
Record t : Type := mkAttribute {
  activeInfo : WebGLActiveInfo;
  location : Z;
  enabledCache : option bool;
  valueCache : option AttributeValue
}.

Definition with_enabledCache (c : option bool) (this : t) : t :=
  mkAttribute (activeInfo this) (location this) c (valueCache this).

Definition with_valueCache (c : option AttributeValue) (this : t) : t :=
  mkAttribute (activeInfo this) (location this) (enabledCache this) c.

Definition number_of (v : GLValue) : Z :=
  match v with VNum n => n | _ => -1 end.

(** [constructor(program, activeInfo)]: the location is asked of the
    device once; both caches start out undefined. *)
Definition new (program : Program) (info : WebGLActiveInfo) : GL t :=
  loc ← invoke (gl.getAttribLocation (program_internal program) (name info));
  mret (mkAttribute info (number_of loc) None None).

(** [get enabled()]: [return (this.enabledCache ??= false)]. *)
Definition get_enabled (this : t) : GL (bool * t) :=
  let v := default false (enabledCache this) in
  mret (v, with_enabledCache (Some v) this).

(** [set enabled(value)]. *)
Definition set_enabled (value : bool) (this : t) : GL t :=
  r ← get_enabled this;
  let this := snd r in
  if Bool.eqb (fst r) value then mret this
  else
    (if value
     then command (gl.enableVertexAttribArray (location this))
     else command (gl.disableVertexAttribArray (location this)));;
    mret (with_enabledCache (Some value) this).

(** [get value()]. *)
Definition get_value (this : t) : GL (option AttributeValue) :=
  mret (valueCache this).

(** ["buffer" in value ? value : { buffer: value }]. *)
Definition realValue (value : AttributeValue + Buffer) : AttributeValue :=
  match value with
  | inl v => v
  | inr b => mkAttributeValue b None None None None None
  end.

Section Setter.

(** [setterInternal] is abstract in [Attribute]; the subclasses that
    implement it are not among the sources. *)
Variable setterInternal : t -> AttributeValue -> GL unit.

(** [set value(value)]. *)
Definition set_value (value : AttributeValue + Buffer) (this : t) : GL t :=
  this ← set_enabled true this;
  let real := realValue value in
  Buffer_bind (buffer real) WebGLConstant.ARRAY_BUFFER;;
  setterInternal this real;;
  mret (with_valueCache (Some real) this).

End Setter.

(** A call that describes the attribute pointer of location [loc]. *)
Definition is_pointer_call (loc : Z) (c : GLCall) : bool :=
  match c with
  | gl.vertexAttribPointer i _ _ _ _ _ => i =? loc
  | gl.vertexAttribIPointer i _ _ _ _ => i =? loc
  | _ => false
  end.

Definition count_pointer_calls (loc : Z) (l : list GLCall) : nat :=
  length (filter (fun c => is_pointer_call loc c = true) l).

(** The documented contract of [setterInternal] (see [vertexAttribPointer],
    [vertexAttribIPointer]): one pointer call for this location, whatever
    the device state. *)
Definition describes_pointer (f : t -> AttributeValue -> GL unit) : Prop :=
  forall this v, exists c,
    is_pointer_call (location this) c = true /\
    (forall d, f this v d = command c d).

(** Modelled from the spec: the floating-point leaf class issues "the one
    device call describing stride/offset/type/normalization for this
    location". *)
Definition float_setterInternal (this : t) (v : AttributeValue) : GL unit :=
  command (gl.vertexAttribPointer (location this) (size v) (type v)
             (normalized v) (stride v) (offset v)).

(** Modelled from the spec: the integer leaf class, through
    [vertexAttribIPointer]. *)
Definition integer_setterInternal (this : t) (v : AttributeValue) : GL unit :=
  command (gl.vertexAttribIPointer (location this) (size v) (type v)
             (stride v) (offset v)).

(** The flag [enabled] reads: the cache, [false] while it is undefined. *)
Definition enabled (this : t) : bool := default false (enabledCache this).

(** The device after [this.enabled = true]. *)
Definition after_enable (this : t) (d : Device) : Device :=
  if enabled this then d
  else after (gl.enableVertexAttribArray (location this)) d.

End Attribute.

(** * Texture2D (src/unnamed/part_003) *)

Module Texture2D.

Definition TEXTURE0 : Z := 0x84C0.

(** The fields of a [Texture2D], those inherited from [Texture] included.
    [type_] and [format_] are the private [#type] and [#format]; they and
    the optional [width] and [height] are [None] while undefined.  Members
    of [TextureFormat] and [TextureDataType] are the device constants of
    the same names. *)
Record t : Type := mkTexture2D {
  target : Z;
  texture : Z;
  lod : Z;
  internalFormat : Z;
  type_ : option Z;
  format_ : option Z;
  width : option Z;
  height : option Z;
  pixels : Texture2DPixelSource
}.

(** [Texture.bind()]. *)
Definition bind (this : t) : GL unit :=
  command (gl.bindTexture (target this) (texture this)).

(** JavaScript truthiness of an optional number: [undefined] and [0] are
    falsy. *)
Definition truthy (o : option Z) : bool :=
  match o with
  | Some n => negb (n =? 0)
  | None => false
  end.

(** [case] labels sharing one body. *)
Definition case_of (x : Z) (labels : list Z) : bool := existsb (Z.eqb x) labels.

(** [get type()]. *)
Definition get_type (this : t) : GL Z :=
  if truthy (type_ this) then mret (default 0 (type_ this))
  else
    let f := internalFormat this in
    if case_of f
         [ WebGLConstant.RGB; WebGLConstant.RGBA;
           WebGLConstant.LUMINANCE_ALPHA; WebGLConstant.LUMINANCE;
           WebGLConstant.ALPHA; WebGLConstant.R8; WebGLConstant.R8UI;
           WebGLConstant.RG8; WebGLConstant.RG8UI; WebGLConstant.RGB8;
           WebGLConstant.SRGB8; WebGLConstant.RGB565; WebGLConstant.RGB8UI;
           WebGLConstant.RGBA8; WebGLConstant.SRGB8_ALPHA8;
           WebGLConstant.RGB5_A1; WebGLConstant.RGBA4;
           WebGLConstant.RGBA8UI ]
    then mret WebGLConstant.UNSIGNED_BYTE
    else if case_of f
         [ WebGLConstant.R16F; WebGLConstant.R32F; WebGLConstant.RG16F;
           WebGLConstant.RG32F; WebGLConstant.R11F_G11F_B10F;
           WebGLConstant.RGB9_E5; WebGLConstant.RGB16F;
           WebGLConstant.RGB32F; WebGLConstant.RGBA16F;
           WebGLConstant.RGBA32F ]
    then mret WebGLConstant.FLOAT
    else if case_of f [ WebGLConstant.RGB10_A2 ]
    then mret WebGLConstant.UNSIGNED_INT_2_10_10_10_REV
    else throw "Unset data type without default for selected format.".

(** [set type(value)]. *)
Definition set_type (value : Z) (this : t) : t :=
  mkTexture2D (target this) (texture this) (lod this) (internalFormat this)
    (Some value) (format_ this) (width this) (height this) (pixels this).

(** [get format()]. *)
Definition get_format (this : t) : GL Z :=
  if truthy (format_ this) then mret (default 0 (format_ this))
  else
    let f := internalFormat this in
    if case_of f
         [ WebGLConstant.RGB; WebGLConstant.RGB8; WebGLConstant.SRGB8;
           WebGLConstant.RGB565; WebGLConstant.R11F_G11F_B10F;
           WebGLConstant.RGB9_E5; WebGLConstant.RGB16F;
           WebGLConstant.RGB32F ]
    then mret WebGLConstant.RGB
    else if case_of f
         [ WebGLConstant.RGBA; WebGLConstant.RGBA8;
           WebGLConstant.SRGB8_ALPHA8; WebGLConstant.RGB5_A1;
           WebGLConstant.RGB10_A2; WebGLConstant.RGBA4;
           WebGLConstant.RGBA16F; WebGLConstant.RGBA32F ]
    then mret WebGLConstant.RGBA
    else if case_of f [ WebGLConstant.LUMINANCE_ALPHA ]
    then mret WebGLConstant.LUMINANCE_ALPHA
    else if case_of f [ WebGLConstant.LUMINANCE ]
    then mret WebGLConstant.LUMINANCE
    else if case_of f [ WebGLConstant.ALPHA ]
    then mret WebGLConstant.ALPHA
    else if case_of f
         [ WebGLConstant.R8; WebGLConstant.R16F; WebGLConstant.R32F ]
    then mret WebGLConstant.RED
    else if case_of f [ WebGLConstant.R8UI ]
    then mret WebGLConstant.RED_INTEGER
    else if case_of f
         [ WebGLConstant.RG8; WebGLConstant.RG16F; WebGLConstant.RG32F ]
    then mret WebGLConstant.RG
    else if case_of f [ WebGLConstant.RG8UI ]
    then mret WebGLConstant.RG_INTEGER
    else if case_of f [ WebGLConstant.RGB8UI ]
    then mret WebGLConstant.RGB_INTEGER
    else if case_of f [ WebGLConstant.RGBA8UI ]
    then mret WebGLConstant.RGBA_INTEGER
    else mret f.

(** [update(textureUnit)].  The arguments of [texImage2D] are evaluated
    left to right before the call, so [this.format] is read before
    [this.type], and a throwing getter prevents the call. *)
Definition update (textureUnit : Z) (this : t) : GL unit :=
  command (gl.activeTexture (TEXTURE0 + textureUnit));;
  bind this;;
  match width this, height this with
  | Some w, Some h =>
      fmt ← get_format this;
      ty ← get_type this;
      command (gl.texImage2D_sized (target this) (lod this)
                 (internalFormat this) w h 0 fmt ty (pixels this))
  | _, _ =>
      fmt ← get_format this;
      ty ← get_type this;
      command (gl.texImage2D_source (target this) (lod this)
                 (internalFormat this) fmt ty (pixels this))
  end.

(** The default data types as a table, in the words of the
    specification: each listed internal format with its data type. *)
Definition default_type_table : list (Z * Z) :=
  [ (WebGLConstant.RGB, WebGLConstant.UNSIGNED_BYTE);
    (WebGLConstant.RGBA, WebGLConstant.UNSIGNED_BYTE);
    (WebGLConstant.LUMINANCE_ALPHA, WebGLConstant.UNSIGNED_BYTE);
    (WebGLConstant.LUMINANCE, WebGLConstant.UNSIGNED_BYTE);
    (WebGLConstant.ALPHA, WebGLConstant.UNSIGNED_BYTE);
    (WebGLConstant.R8, WebGLConstant.UNSIGNED_BYTE);
    (WebGLConstant.R8UI, WebGLConstant.UNSIGNED_BYTE);
    (WebGLConstant.RG8, WebGLConstant.UNSIGNED_BYTE);
    (WebGLConstant.RG8UI, WebGLConstant.UNSIGNED_BYTE);
    (WebGLConstant.RGB8, WebGLConstant.UNSIGNED_BYTE);
    (WebGLConstant.SRGB8, WebGLConstant.UNSIGNED_BYTE);
    (WebGLConstant.RGB565, WebGLConstant.UNSIGNED_BYTE);
    (WebGLConstant.RGB8UI, WebGLConstant.UNSIGNED_BYTE);
    (WebGLConstant.RGBA8, WebGLConstant.UNSIGNED_BYTE);
    (WebGLConstant.SRGB8_ALPHA8, WebGLConstant.UNSIGNED_BYTE);
    (WebGLConstant.RGB5_A1, WebGLConstant.UNSIGNED_BYTE);
    (WebGLConstant.RGBA4, WebGLConstant.UNSIGNED_BYTE);
    (WebGLConstant.RGBA8UI, WebGLConstant.UNSIGNED_BYTE);
    (WebGLConstant.R16F, WebGLConstant.FLOAT);
    (WebGLConstant.R32F, WebGLConstant.FLOAT);
    (WebGLConstant.RG16F, WebGLConstant.FLOAT);
    (WebGLConstant.RG32F, WebGLConstant.FLOAT);
    (WebGLConstant.R11F_G11F_B10F, WebGLConstant.FLOAT);
    (WebGLConstant.RGB9_E5, WebGLConstant.FLOAT);
    (WebGLConstant.RGB16F, WebGLConstant.FLOAT);
    (WebGLConstant.RGB32F, WebGLConstant.FLOAT);
    (WebGLConstant.RGBA16F, WebGLConstant.FLOAT);
    (WebGLConstant.RGBA32F, WebGLConstant.FLOAT);
    (WebGLConstant.RGB10_A2, WebGLConstant.UNSIGNED_INT_2_10_10_10_REV) ].

Fixpoint table_lookup (f : Z) (tbl : list (Z * Z)) : option Z :=
  match tbl with
  | [] => None
  | (k, v) :: rest => if f =? k then Some v else table_lookup f rest
  end.

(** What reading [type] yields when the type is unset, by the table. *)
Definition default_type (f : Z) : GL Z :=
  match table_lookup f default_type_table with
  | Some ty => mret ty
  | None => throw "Unset data type without default for selected format."
  end.

Definition with_internalFormat (f : Z) (this : t) : t :=
  mkTexture2D (target this) (texture this) (lod this) f
    (type_ this) (format_ this) (width this) (height this) (pixels this).

(** The upload entry points. *)
Definition is_upload (c : GLCall) : bool :=
  match c with
  | gl.texImage2D_sized _ _ _ _ _ _ _ _ _ => true
  | gl.texImage2D_source _ _ _ _ _ _ => true
  | _ => false
  end.

End Texture2D.

(** * Uniform leaf classes
      (src/variables/uniforms/FloatMatrix4x4Uniform.ts,
       src/variables/uniforms/FloatMatrix4x3Uniform.ts,
       src/unnamed/part_005,
       src/core/variables/uniforms/FloatVector2Uniform.ts) *)

Module Uniform.

(** The fields the leaf setters read.  They are declared by the base
    classes ([Uniform], [MatrixUniform]), which are not among the sources;
    [transpose] is only read by the matrix classes, and an unset window
    bound is [None]. *)
Record t : Type := mkUniform {
  location : Z;
  transpose : bool;
  sourceOffset : option Z;
  sourceLength : option Z
}.

(** [FloatMatrix4x4Uniform.arraySetter]. *)
Definition FloatMatrix4x4Uniform_arraySetter (this : t) (value : list number)
    : GL unit :=
  command (gl.uniformMatrix4fv (location this) (transpose this) value
             (sourceOffset this) (sourceLength this)).

(** [FloatMatrix4x3Uniform.arraySetter]. *)
Definition FloatMatrix4x3Uniform_arraySetter (this : t) (value : list number)
    : GL unit :=
  command (gl.uniformMatrix4x3fv (location this) (transpose this) value
             (sourceOffset this) (sourceLength this)).

(** [IntegerVector3Uniform.iterableSetter]. *)
Definition IntegerVector3Uniform_iterableSetter (this : t)
    (value : list number) : GL unit :=
  command (gl.uniform3iv (location this) value
             (sourceOffset this) (sourceLength this)).

(** [FloatVector2Uniform.iterableSetterInternal]. *)
Definition FloatVector2Uniform_iterableSetterInternal (this : t)
    (value : list number) : GL unit :=
  command (gl.uniform2fv (location this) value
             (sourceOffset this) (sourceLength this)).

(** [UnsignedIntegerVector2Uniform.iterableSetter]. *)
Definition UnsignedIntegerVector2Uniform_iterableSetter (this : t)
    (value : list number) : GL unit :=
  command (gl.uniform2uiv (location this) value
             (sourceOffset this) (sourceLength this)).

(** The leaf classes whose source is available. *)
Inductive Class : Type :=
  | FloatMatrix4x4Uniform
  | FloatMatrix4x3Uniform
  | IntegerVector3Uniform
  | FloatVector2Uniform
  | UnsignedIntegerVector2Uniform.

(** Virtual dispatch of the setter for iterable values. *)
Definition iterableSetter (c : Class) : t -> list number -> GL unit :=
  match c with
  | FloatMatrix4x4Uniform => FloatMatrix4x4Uniform_arraySetter
  | FloatMatrix4x3Uniform => FloatMatrix4x3Uniform_arraySetter
  | IntegerVector3Uniform => IntegerVector3Uniform_iterableSetter
  | FloatVector2Uniform => FloatVector2Uniform_iterableSetterInternal
  | UnsignedIntegerVector2Uniform =>
      UnsignedIntegerVector2Uniform_iterableSetter
  end.

(** Numeric kinds and shapes of shader variables. *)
Inductive Kind : Type := int32 | uint32 | float32 | boolean.

Inductive Shape : Type :=
  | scalar | vec2 | vec3 | vec4
  | mat2 | mat3 | mat4
  | mat2x3 | mat2x4 | mat3x2 | mat3x4 | mat4x2 | mat4x3.

(** What each class declares itself to be (class name and doc comment). *)
Definition kind_of (c : Class) : Kind :=
  match c with
  | FloatMatrix4x4Uniform | FloatMatrix4x3Uniform | FloatVector2Uniform =>
      float32
  | IntegerVector3Uniform => int32
  | UnsignedIntegerVector2Uniform => uint32
  end.

Definition shape_of (c : Class) : Shape :=
  match c with
  | FloatMatrix4x4Uniform => mat4
  | FloatMatrix4x3Uniform => mat4x3
  | IntegerVector3Uniform => vec3
  | FloatVector2Uniform | UnsignedIntegerVector2Uniform => vec2
  end.

Definition is_matrix (s : Shape) : bool :=
  match s with
  | scalar | vec2 | vec3 | vec4 => false
  | _ => true
  end.

(** Rows times columns of a matrix shape, components of a vector. *)
Definition element_count (s : Shape) : Z :=
  match s with
  | scalar => 1 | vec2 => 2 | vec3 => 3 | vec4 => 4
  | mat2 => 4 | mat3 => 9 | mat4 => 16
  | mat2x3 | mat3x2 => 6
  | mat2x4 | mat4x2 => 8
  | mat3x4 | mat4x3 => 12
  end.

(** The device's naming scheme for the sequence-taking uniform entry
    points: [uniform[1234][fiu]v] and [uniformMatrix[234]x[234]fv].
    Matrices exist for floats only; booleans have no entry point of their
    own. *)
Definition shape_tag (s : Shape) : string :=
  match s with
  | scalar => "1" | vec2 => "2" | vec3 => "3" | vec4 => "4"
  | mat2 => "2" | mat3 => "3" | mat4 => "4"
  | mat2x3 => "2x3" | mat2x4 => "2x4" | mat3x2 => "3x2"
  | mat3x4 => "3x4" | mat4x2 => "4x2" | mat4x3 => "4x3"
  end.

Definition entry_point (k : Kind) (s : Shape) : option string :=
  if is_matrix s then
    match k with
    | float32 => Some ("uniformMatrix" ++ shape_tag s ++ "fv")%string
    | _ => None
    end
  else
    match k with
    | float32 => Some ("uniform" ++ shape_tag s ++ "fv")%string
    | int32 => Some ("uniform" ++ shape_tag s ++ "iv")%string
    | uint32 => Some ("uniform" ++ shape_tag s ++ "uiv")%string
    | boolean => None
    end.

(** Name and arguments of a uniform call in the log. *)
Definition call_name (c : GLCall) : option string :=
  match c with
  | gl.uniform2fv _ _ _ _ => Some "uniform2fv"%string
  | gl.uniform2uiv _ _ _ _ => Some "uniform2uiv"%string
  | gl.uniform3iv _ _ _ _ => Some "uniform3iv"%string
  | gl.uniformMatrix4fv _ _ _ _ _ => Some "uniformMatrix4fv"%string
  | gl.uniformMatrix4x3fv _ _ _ _ _ => Some "uniformMatrix4x3fv"%string
  | _ => None
  end.

Record Arguments_ : Type := mkArguments {
  arg_location : Z;
  arg_transpose : option bool;
  arg_data : list number;
  arg_srcOffset : option Z;
  arg_srcLength : option Z
}.

Definition call_arguments (c : GLCall) : option Arguments_ :=
  match c with
  | gl.uniform2fv l v o n | gl.uniform2uiv l v o n | gl.uniform3iv l v o n =>
      Some (mkArguments l None v o n)
  | gl.uniformMatrix4fv l t v o n | gl.uniformMatrix4x3fv l t v o n =>
      Some (mkArguments l (Some t) v o n)
  | _ => None
  end.

(** Length of a source sequence, and whether it is a whole number of
    elements of shape [s]. *)
Definition exact_multiple (s : Shape) (value : list number) : bool :=
  Z.of_nat (length value) mod element_count s =? 0.

End Uniform.

(** * RenderingContext (src/unnamed/part_004) *)

Module RenderingContext.

(** The only field of a [RenderingContext] is the device itself
    ([readonly gl]); the class declares no other state.  The properties
    that come as a getter/setter pair: *)
Inductive Slot : Type :=
  | scissorBox | viewport | activeTextureUnit | blendColor
  | blendEquationRgb | blendEquationAlpha
  | blendFuncSrcRgb | blendFuncDstRgb | blendFuncSrcAlpha | blendFuncDstAlpha
  | clearColor | clearDepth | clearStencil | colorMask | cullFace
  | depthFunc | depthMask | depthRange
  | enableBlend | enableCullFace | enableDepthTest | enableDither
  | enablePolygonOffsetFill | enableSampleAlphaToCoverage
  | enableSampleCoverage | enableScissorTest | enableStencilTest
  | enableRasterizerDiscard
  | frontFace | generateMipmapHint | fragmentShaderDerivativeHint
  | lineWidth | packAlignment | unpackAlignment | unpackFlipY
  | unpackPremultiplyAlpha | unpackColorspaceConversion
  | packRowLength | packSkipPixels | packSkipRows
  | unpackRowLength | unpackImageHeight | unpackSkipPixels
  | unpackSkipRows | unpackSkipImages
  | polygonOffsetFactor | polygonOffsetUnits
  | sampleCoverageValue | sampleCoverageInvert
  | stencilFuncFront | stencilRefFront | stencilValueMaskFront
  | stencilFuncBack | stencilRefBack | stencilValueMaskBack
  | stencilMaskFront | stencilMaskBack
  | stencilFailFront | stencilZFailFront | stencilZPassFront
  | stencilFailBack | stencilZFailBack | stencilZPassBack.

(** The device query in the body of each getter. *)
Definition query (s : Slot) : GLCall :=
  match s with
  | scissorBox => gl.getParameter WebGLConstant.SCISSOR_BOX
  | viewport => gl.getParameter WebGLConstant.VIEWPORT
  | activeTextureUnit => gl.getParameter WebGLConstant.ACTIVE_TEXTURE
  | blendColor => gl.getParameter WebGLConstant.BLEND_COLOR
  | blendEquationRgb => gl.getParameter WebGLConstant.BLEND_EQUATION_RGB
  | blendEquationAlpha => gl.getParameter WebGLConstant.BLEND_EQUATION_ALPHA
  | blendFuncSrcRgb => gl.getParameter WebGLConstant.BLEND_SRC_RGB
  | blendFuncDstRgb => gl.getParameter WebGLConstant.BLEND_DST_RGB
  | blendFuncSrcAlpha => gl.getParameter WebGLConstant.BLEND_SRC_ALPHA
  | blendFuncDstAlpha => gl.getParameter WebGLConstant.BLEND_DST_ALPHA
  | clearColor => gl.getParameter WebGLConstant.COLOR_CLEAR_VALUE
  | clearDepth => gl.getParameter WebGLConstant.DEPTH_CLEAR_VALUE
  | clearStencil => gl.getParameter WebGLConstant.STENCIL_CLEAR_VALUE
  | colorMask => gl.getParameter WebGLConstant.COLOR_WRITEMASK
  | cullFace => gl.getParameter WebGLConstant.CULL_FACE_MODE
  | depthFunc => gl.getParameter WebGLConstant.DEPTH_FUNC
  | depthMask => gl.getParameter WebGLConstant.DEPTH_WRITEMASK
  | depthRange => gl.getParameter WebGLConstant.DEPTH_RANGE
  | enableBlend => gl.isEnabled WebGLConstant.BLEND
  | enableCullFace => gl.isEnabled WebGLConstant.CULL_FACE
  | enableDepthTest => gl.isEnabled WebGLConstant.DEPTH_TEST
  | enableDither => gl.isEnabled WebGLConstant.DITHER
  | enablePolygonOffsetFill => gl.isEnabled WebGLConstant.POLYGON_OFFSET_FILL
  | enableSampleAlphaToCoverage =>
      gl.isEnabled WebGLConstant.SAMPLE_ALPHA_TO_COVERAGE
  | enableSampleCoverage => gl.isEnabled WebGLConstant.SAMPLE_COVERAGE
  | enableScissorTest => gl.isEnabled WebGLConstant.SCISSOR_TEST
  | enableStencilTest => gl.isEnabled WebGLConstant.STENCIL_TEST
  | enableRasterizerDiscard => gl.isEnabled WebGLConstant.RASTERIZER_DISCARD
  | frontFace => gl.getParameter WebGLConstant.FRONT_FACE
  | generateMipmapHint => gl.getParameter WebGLConstant.GENERATE_MIPMAP_HINT
  | fragmentShaderDerivativeHint =>
      gl.getParameter WebGLConstant.FRAGMENT_SHADER_DERIVATIVE_HINT
  | lineWidth => gl.getParameter WebGLConstant.LINE_WIDTH
  | packAlignment => gl.getParameter WebGLConstant.PACK_ALIGNMENT
  | unpackAlignment => gl.getParameter WebGLConstant.UNPACK_ALIGNMENT
  | unpackFlipY => gl.getParameter WebGLConstant.UNPACK_FLIP_Y_WEBGL
  | unpackPremultiplyAlpha =>
      gl.getParameter WebGLConstant.UNPACK_PREMULTIPLY_ALPHA_WEBGL
  | unpackColorspaceConversion =>
      gl.getParameter WebGLConstant.UNPACK_COLORSPACE_CONVERSION_WEBGL
  | packRowLength => gl.getParameter WebGLConstant.PACK_ROW_LENGTH
  | packSkipPixels => gl.getParameter WebGLConstant.PACK_SKIP_PIXELS
  | packSkipRows => gl.getParameter WebGLConstant.PACK_SKIP_ROWS
  | unpackRowLength => gl.getParameter WebGLConstant.UNPACK_ROW_LENGTH
  | unpackImageHeight => gl.getParameter WebGLConstant.UNPACK_IMAGE_HEIGHT
  | unpackSkipPixels => gl.getParameter WebGLConstant.UNPACK_SKIP_PIXELS
  | unpackSkipRows => gl.getParameter WebGLConstant.UNPACK_SKIP_ROWS
  | unpackSkipImages => gl.getParameter WebGLConstant.UNPACK_SKIP_IMAGES
  | polygonOffsetFactor => gl.getParameter WebGLConstant.POLYGON_OFFSET_FACTOR
  | polygonOffsetUnits => gl.getParameter WebGLConstant.POLYGON_OFFSET_UNITS
  | sampleCoverageValue => gl.getParameter WebGLConstant.SAMPLE_COVERAGE_VALUE
  | sampleCoverageInvert =>
      gl.getParameter WebGLConstant.SAMPLE_COVERAGE_INVERT
  | stencilFuncFront => gl.getParameter WebGLConstant.STENCIL_FUNC
  | stencilRefFront => gl.getParameter WebGLConstant.STENCIL_REF
  | stencilValueMaskFront => gl.getParameter WebGLConstant.STENCIL_VALUE_MASK
  | stencilFuncBack => gl.getParameter WebGLConstant.STENCIL_BACK_FUNC
  | stencilRefBack => gl.getParameter WebGLConstant.STENCIL_BACK_REF
  | stencilValueMaskBack =>
      gl.getParameter WebGLConstant.STENCIL_BACK_VALUE_MASK
  | stencilMaskFront => gl.getParameter WebGLConstant.STENCIL_WRITEMASK
  | stencilMaskBack => gl.getParameter WebGLConstant.STENCIL_BACK_WRITEMASK
  | stencilFailFront => gl.getParameter WebGLConstant.STENCIL_FAIL
  | stencilZFailFront => gl.getParameter WebGLConstant.STENCIL_PASS_DEPTH_FAIL
  | stencilZPassFront => gl.getParameter WebGLConstant.STENCIL_PASS_DEPTH_PASS
  | stencilFailBack => gl.getParameter WebGLConstant.STENCIL_BACK_FAIL
  | stencilZFailBack =>
      gl.getParameter WebGLConstant.STENCIL_BACK_PASS_DEPTH_FAIL
  | stencilZPassBack =>
      gl.getParameter WebGLConstant.STENCIL_BACK_PASS_DEPTH_PASS
  end.

(** JavaScript's conversion of a value to a number, as the operator [-]
    applies it: [null] is 0, [true] is 1 and [false] 0, an array-like of no
    element is 0, of one element that element, of more elements NaN ([None]
    stands for NaN). *)
Definition to_number (v : GLValue) : option Z :=
  match v with
  | VNum n => Some n
  | VBool b => Some (if b then 1 else 0)
  | VNull => Some 0
  | VTuple [] => Some 0
  | VTuple [x] => Some x
  | VTuple _ => None
  | VNaN => None
  end.

(** [answer - n]. *)
Definition minus (answer : GLValue) (n : Z) : GLValue :=
  match to_number answer with
  | Some x => VNum (x - n)
  | None => VNaN
  end.

(** Whether [...answer] can be spread into an argument list: the tuples
    can; [null], numbers and booleans cannot. *)
Definition iterable (answer : GLValue) : bool :=
  match answer with
  | VTuple _ => true
  | _ => false
  end.

(** The getters whose body spreads the answer into a constructor
    ([new Rectangle(...answer)], [new Color(...)], [new ColorMask(...)],
    [new Range(...)]). *)
Definition spreads (s : Slot) : bool :=
  match s with
  | scissorBox | viewport | blendColor | clearColor | colorMask
  | depthRange => true
  | _ => false
  end.

(** What a getter makes of the device's answer.  [activeTextureUnit]
    subtracts [TEXTURE0] from it.  The six spreading getters wrap the
    numbers of a tuple in a [Rectangle], [Color], [ColorMask] or [Range],
    and throw a TypeError (whose message is the engine's) when the answer
    cannot be spread.  The rest return the answer as it is. *)
Definition present (s : Slot) (answer : GLValue) : Completion GLValue :=
  match s with
  | activeTextureUnit => Normal (minus answer WebGLConstant.TEXTURE0)
  | scissorBox | viewport | blendColor | clearColor | colorMask
  | depthRange =>
      if iterable answer then Normal answer else Thrown "TypeError"
  | _ => Normal answer
  end.

(** A getter: its one statement is [return <query>]. *)
Definition get (s : Slot) : GL GLValue :=
  answer ← invoke (query s);
  match present s answer with
  | Normal v => mret v
  | Thrown e => throw e
  end.

(** [set depthFunc(value)]. *)
Definition set_depthFunc (value : Z) : GL unit :=
  command (gl.depthFunc value).

(** [set viewport(value)]: the four numbers are spread into the call. *)
Definition set_viewport (value : Z * Z * Z * Z) : GL unit :=
  let '(x, y, w, h) := value in
  command (gl.viewport x y w h).

(** [set stencilFuncFront(value)].  Arguments are evaluated left to
    right, so the sibling getters run in the order written. *)
Definition set_stencilFuncFront (value : Z) : GL unit :=
  ref ← get stencilRefFront;
  mask ← get stencilMaskFront;
  command (gl.stencilFuncSeparate WebGLConstant.FRONT (VNum value) ref mask).

(** [set stencilRefFront(value)]. *)
Definition set_stencilRefFront (value : Z) : GL unit :=
  func ← get stencilFuncFront;
  mask ← get stencilMaskFront;
  command (gl.stencilFuncSeparate WebGLConstant.FRONT func (VNum value) mask).

(** [set stencilValueMaskFront(value)]. *)
Definition set_stencilValueMaskFront (value : Z) : GL unit :=
  func ← get stencilFuncFront;
  ref ← get stencilRefBack;
  command (gl.stencilFuncSeparate WebGLConstant.FRONT func ref (VNum value)).

(** [set stencilFuncBack(value)]. *)
Definition set_stencilFuncBack (value : Z) : GL unit :=
  ref ← get stencilRefBack;
  mask ← get stencilValueMaskBack;
  command (gl.stencilFuncSeparate WebGLConstant.BACK (VNum value) ref mask).

(** [set stencilRefBack(value)]. *)
Definition set_stencilRefBack (value : Z) : GL unit :=
  func ← get stencilFuncBack;
  mask ← get stencilValueMaskBack;
  command (gl.stencilFuncSeparate WebGLConstant.BACK func (VNum value) mask).

(** [set stencilValueMaskBack(value)]. *)
Definition set_stencilValueMaskBack (value : Z) : GL unit :=
  func ← get stencilFuncBack;
  ref ← get stencilRefBack;
  command (gl.stencilFuncSeparate WebGLConstant.BACK func ref (VNum value)).

(** [set stencilMaskFront(value)]. *)
Definition set_stencilMaskFront (value : Z) : GL unit :=
  command (gl.stencilMaskSeparate WebGLConstant.FRONT value).

(** [set stencilMaskBack(value)]. *)
Definition set_stencilMaskBack (value : Z) : GL unit :=
  command (gl.stencilMaskSeparate WebGLConstant.BACK value).

(** The register behind a device parameter. *)
Definition param (d : Device) (pname : Z) : GLValue :=
  default VNull (params d !! pname).

(** The commands in a log, queries left out. *)
Definition commands (l : list GLCall) : list GLCall :=
  filter (fun c => is_query c = false) l.

(** A device whose front-face stencil reference is 1, back-face
    reference 2, front-face value mask 0x0F and front-face write mask
    0xF0, both functions ALWAYS. *)
Definition device_stencil : Device :=
  mkDevice
    (<[WebGLConstant.STENCIL_FUNC := VNum WebGLConstant.ALWAYS]>
     (<[WebGLConstant.STENCIL_REF := VNum 1]>
     (<[WebGLConstant.STENCIL_VALUE_MASK := VNum 0x0F]>
     (<[WebGLConstant.STENCIL_WRITEMASK := VNum 0xF0]>
     (<[WebGLConstant.STENCIL_BACK_FUNC := VNum WebGLConstant.ALWAYS]>
     (<[WebGLConstant.STENCIL_BACK_REF := VNum 2]>
     (<[WebGLConstant.STENCIL_BACK_VALUE_MASK := VNum 0x0F]>
     (<[WebGLConstant.STENCIL_BACK_WRITEMASK := VNum 0xF0]> ∅))))))))
    ∅ [].

End RenderingContext.


(** * Sample objects *)

(** An attribute at location 4 whose array is enabled. *)
Definition attribute_on : Attribute.t :=
  Attribute.mkAttribute (Attribute.mkActiveInfo "a_position" 1 0x8b51) 4
    (Some true) None.

(** A float attribute at location 4 that has not been touched yet, and a
    buffer to feed it from. *)
Definition attribute_fresh : Attribute.t :=
  Attribute.mkAttribute (Attribute.mkActiveInfo "a_position" 1 0x8b51) 4
    None None.

Definition buffer9 : Attribute.Buffer := Attribute.mkBuffer 9.

(** A full descriptor over that buffer: three floats per vertex, tightly
    packed. *)
Definition descriptor9 : Attribute.AttributeValue :=
  Attribute.mkAttributeValue buffer9 (Some 3) (Some WebGLConstant.FLOAT)
    (Some false) (Some 12) (Some 0).

(** A texture as the constructor leaves it (RGBA, nothing else set), and
    one whose internal format has been changed to RED. *)
Definition texture_rgba : Texture2D.t :=
  Texture2D.mkTexture2D WebGLConstant.TEXTURE_2D 7 0 WebGLConstant.RGBA
    None None None None (ImageData 1).

Definition texture_red : Texture2D.t :=
  Texture2D.with_internalFormat WebGLConstant.RED texture_rgba.

(** A device that reports the viewport (0, 0, 300, 150). *)
Definition device_viewport : Device :=
  mkDevice (<[WebGLConstant.VIEWPORT := VTuple [0; 0; 300; 150]]> ∅) ∅ [].

(** A float 4x4 matrix uniform and a source sequence of fifteen numbers
    (fifteen times 1.0). *)
Definition uniform_mat4 : Uniform.t := Uniform.mkUniform 11 false None None.

Definition fifteen : list number := repeat 0x3FF0000000000000 15.

(** * The enable flag on the device side *)

Module AttributeMirror.

(** One entry of the log, seen from the enable flag of attribute [loc]:
    only the two toggles for that index change it. *)
Definition toggle_step (loc : Z) (flag : bool) (c : GLCall) : bool :=
  match c with
  | gl.enableVertexAttribArray i => if i =? loc then true else flag
  | gl.disableVertexAttribArray i => if i =? loc then false else flag
  | _ => flag
  end.

(** The enable flag the device holds for attribute [loc] after a log of
    calls; every attribute array starts out disabled. *)
Definition device_enabled (loc : Z) (log : list GLCall) : bool :=
  fold_left (toggle_step loc) log false.

(** The cached flag of [this] is the flag of the device. *)
Definition mirrors (this : Attribute.t) (d : Device) : Prop :=
  Attribute.enabled this
  = device_enabled (Attribute.location this) (calls d).

End AttributeMirror.

(** * More of RenderingContext (src/unnamed/part_004) *)

Module ContextSetters.

(** [set activeTextureUnit(value)]. *)
Definition set_activeTextureUnit (value : Z) : GL unit :=
  command (gl.activeTexture (WebGLConstant.TEXTURE0 + value)).

(** What reading the property [s] returns on the device [d]. *)
Definition reads (s : RenderingContext.Slot) (d : Device)
    : Completion GLValue :=
  fst (RenderingContext.get s d).

End ContextSetters.

(** Look a register up through the writes of a setter. *)
Ltac registers :=
  unfold ContextSetters.reads;
  unfold RenderingContext.param; gl_unfold; unfold write_face; simpl;
  repeat (rewrite lookup_insert_eq || rewrite lookup_insert_ne by discriminate);
  try reflexivity.

Module StencilFrame.
Import RenderingContext.

(** Running [setter v] on [d] leaves [own] reading [v] and every property
    of [others] reading what it read on [d]. *)
Definition sets_only (setter : Z -> GL unit) (own : Slot) (others : list Slot)
    (d : Device) (v : Z) : Prop :=
  ContextSetters.reads own (snd (setter v d)) = Normal (VNum v)
  /\ Forall (fun s => ContextSetters.reads s (snd (setter v d))
                      = ContextSetters.reads s d) others.

End StencilFrame.

(** * getDataTypeForTypedArray (src/unnamed/part_001) *)

Module TypedArrays.

(** The classes of typed array that the declared signatures name. *)
Inductive TypedArray : Type :=
  | Int8Array | Uint8Array | Uint8ClampedArray
  | Int16Array | Uint16Array
  | Int32Array | Uint32Array
  | Float32Array.

(** [BufferDataType], by the device constants of the same names. *)
Module BufferDataType.
Definition BYTE : Z := 0x1400.
Definition UNSIGNED_BYTE : Z := 0x1401.
Definition SHORT : Z := 0x1402.
Definition UNSIGNED_SHORT : Z := 0x1403.
Definition INT : Z := 0x1404.
Definition UNSIGNED_INT : Z := 0x1405.
Definition FLOAT : Z := 0x1406.
Definition HALF_FLOAT : Z := 0x140b.
End BufferDataType.

(** [array instanceof C]: the typed array classes do not inherit from one
    another. *)
Definition instanceof (array C : TypedArray) : bool :=
  match array, C with
  | Int8Array, Int8Array | Uint8Array, Uint8Array
  | Uint8ClampedArray, Uint8ClampedArray
  | Int16Array, Int16Array | Uint16Array, Uint16Array
  | Int32Array, Int32Array | Uint32Array, Uint32Array
  | Float32Array, Float32Array => true
  | _, _ => false
  end.

(** The implementation; an omitted [half] is [None] and defaults to
    [false]. *)
Definition getDataTypeForTypedArray (array : TypedArray) (half : option bool)
    : Z :=
  let half := default false half in
  if instanceof array Int8Array then BufferDataType.BYTE
  else if instanceof array Uint8Array || instanceof array Uint8ClampedArray
  then BufferDataType.UNSIGNED_BYTE
  else if instanceof array Int16Array then BufferDataType.SHORT
  else if instanceof array Uint16Array then BufferDataType.UNSIGNED_SHORT
  else if instanceof array Int32Array then BufferDataType.INT
  else if instanceof array Uint32Array then BufferDataType.UNSIGNED_INT
  else if half then BufferDataType.HALF_FLOAT
  else BufferDataType.FLOAT.

(** The overload signatures declared ahead of the implementation: the
    return type each one promises for the arguments it accepts.  Calls that
    only the last, general signature accepts are promised no particular
    member. *)
Definition declared (array : TypedArray) (half : option bool) : option Z :=
  match array, half with
  | Int8Array, None => Some BufferDataType.BYTE
  | Uint8Array, None | Uint8ClampedArray, None =>
      Some BufferDataType.UNSIGNED_BYTE
  | Int16Array, None => Some BufferDataType.SHORT
  | Uint16Array, None => Some BufferDataType.UNSIGNED_SHORT
  | Int32Array, None => Some BufferDataType.INT
  | Uint32Array, None => Some BufferDataType.UNSIGNED_INT
  | Float32Array, Some true => Some BufferDataType.HALF_FLOAT
  | Float32Array, Some false => Some BufferDataType.FLOAT
  | _, _ => None
  end.

End TypedArrays.

(** * Matrix2 (src/unnamed/part_000) *)

Module Matrix2.

Section Arithmetic.

(** JavaScript numbers and the operations on them that the class uses.
    The embedding is parametric in them: every statement below holds for
    whatever the arithmetic computes. *)
Context {num : Type}.
Variables (one : num) (add sub mul div : num -> num -> num).
Variables (neg sin cos : num -> num).

(** Matrices are mutable objects and the static methods are handed the
    object to write to, which may be one of the operands.  The heap maps an
    object reference and an index to the number stored there. *)
Definition Heap : Type := nat -> nat -> num.

(** [r[i] = v]. *)
Definition write (r i : nat) (v : num) (h : Heap) : Heap :=
  fun r' i' => if (r' =? r)%nat && (i' =? i)%nat then v else h r' i'.

(** The four entries of the matrix at [r]. *)
Definition entries (h : Heap) (r : nat) : num * num * num * num :=
  (h r 0%nat, h r 1%nat, h r 2%nat, h r 3%nat).

(** [addFast(a, b, out)]. *)
Definition addFast (a b out : nat) (h : Heap) : Heap :=
  let h := write out 0 (add (h a 0%nat) (h b 0%nat)) h in
  let h := write out 1 (add (h a 1%nat) (h b 1%nat)) h in
  let h := write out 2 (add (h a 2%nat) (h b 2%nat)) h in
  write out 3 (add (h a 3%nat) (h b 3%nat)) h.

(** [add(m)]. *)
Definition add_ (this m : nat) : Heap -> Heap := addFast this m this.

(** [adjointFast(m, out)]. *)
Definition adjointFast (m out : nat) (h : Heap) : Heap :=
  let h := write out 0 (h m 3%nat) h in
  let h := write out 1 (neg (h m 1%nat)) h in
  let h := write out 2 (neg (h m 2%nat)) h in
  write out 3 (h m 0%nat) h.

(** [adjoint()]. *)
Definition adjoint (this : nat) : Heap -> Heap := adjointFast this this.

(** [cofactorFast(m, out)]. *)
Definition cofactorFast (m out : nat) (h : Heap) : Heap :=
  let h := write out 0 (h m 3%nat) h in
  let h := write out 1 (neg (h m 1%nat)) h in
  let h := write out 2 (h m 2%nat) h in
  write out 3 (neg (h m 0%nat)) h.

(** [cofactor()]. *)
Definition cofactor (this : nat) : Heap -> Heap := cofactorFast this this.

(** [determinantFast(m)]. *)
Definition determinantFast (m : nat) (h : Heap) : num :=
  sub (mul (h m 0%nat) (h m 3%nat)) (mul (h m 2%nat) (h m 1%nat)).

(** [invertFast(m, out)]. *)
Definition invertFast (m out : nat) (h : Heap) : Heap :=
  let a00 := h m 0%nat in
  let a01 := h m 1%nat in
  let a10 := h m 2%nat in
  let a11 := h m 3%nat in
  let det := div one (sub (mul a00 a11) (mul a10 a01)) in
  let h := write out 0 (mul a11 det) h in
  let h := write out 1 (mul (neg a01) det) h in
  let h := write out 2 (mul (neg a10) det) h in
  write out 3 (mul a00 det) h.

(** [invert()]. *)
Definition invert (this : nat) : Heap -> Heap := invertFast this this.

(** [multiplyFast(a, b, out)]. *)
Definition multiplyFast (a b out : nat) (h : Heap) : Heap :=
  let a00 := h a 0%nat in
  let a01 := h a 1%nat in
  let a10 := h a 2%nat in
  let a11 := h a 3%nat in
  let b00 := h b 0%nat in
  let b01 := h b 1%nat in
  let b10 := h b 2%nat in
  let b11 := h b 3%nat in
  let h := write out 0 (add (mul a00 b00) (mul a10 b01)) h in
  let h := write out 1 (add (mul a01 b00) (mul a11 b01)) h in
  let h := write out 2 (add (mul a00 b10) (mul a10 b11)) h in
  write out 3 (add (mul a01 b10) (mul a11 b11)) h.

(** [multiply(m)]. *)
Definition multiply (this m : nat) : Heap -> Heap := multiplyFast this m this.

(** [multiplyScalarFast(m, s, out)]. *)
Definition multiplyScalarFast (m : nat) (s : num) (out : nat) (h : Heap)
    : Heap :=
  let h := write out 0 (mul (h m 0%nat) s) h in
  let h := write out 1 (mul (h m 1%nat) s) h in
  let h := write out 2 (mul (h m 2%nat) s) h in
  write out 3 (mul (h m 3%nat) s) h.

(** [multiplyScalar(s)]. *)
Definition multiplyScalar (this : nat) (s : num) : Heap -> Heap :=
  multiplyScalarFast this s this.

(** The static [rotate(m, r, out)]. *)
Definition rotate (m : nat) (r : num) (out : nat) (h : Heap) : Heap :=
  let a00 := h m 0%nat in
  let a01 := h m 1%nat in
  let a10 := h m 2%nat in
  let a11 := h m 3%nat in
  let s := sin r in
  let c := cos r in
  let h := write out 0 (add (mul a00 c) (mul a10 s)) h in
  let h := write out 1 (add (mul a01 c) (mul a11 s)) h in
  let h := write out 2 (add (mul a00 (neg s)) (mul a10 c)) h in
  write out 3 (add (mul a01 (neg s)) (mul a11 c)) h.

(** The static [scale(m, v, out)]; [v] is a two-element vector object. *)
Definition scale (m v out : nat) (h : Heap) : Heap :=
  let x := h v 0%nat in
  let y := h v 1%nat in
  let h := write out 0 (mul (h m 0%nat) x) h in
  let h := write out 1 (mul (h m 1%nat) x) h in
  let h := write out 2 (mul (h m 2%nat) y) h in
  write out 3 (mul (h m 3%nat) y) h.

(** [subtractFast(a, b, out)]. *)
Definition subtractFast (a b out : nat) (h : Heap) : Heap :=
  let h := write out 0 (sub (h a 0%nat) (h b 0%nat)) h in
  let h := write out 1 (sub (h a 1%nat) (h b 1%nat)) h in
  let h := write out 2 (sub (h a 2%nat) (h b 2%nat)) h in
  write out 3 (sub (h a 3%nat) (h b 3%nat)) h.

(** [subtract(m)]. *)
Definition subtract (this m : nat) : Heap -> Heap := subtractFast this m this.

(** [transposeFast(m, out)]. *)
Definition transposeFast (m out : nat) (h : Heap) : Heap :=
  let h := write out 0 (h m 0%nat) h in
  let h := write out 1 (h m 2%nat) h in
  let h := write out 2 (h m 1%nat) h in
  write out 3 (h m 3%nat) h.

(** [transpose()]. *)
Definition transpose (this : nat) : Heap -> Heap := transposeFast this this.

End Arithmetic.

(** A heap of integers for trying the methods on: object [r] holds
    [10 r + i] at index [i]. *)
Definition sample_heap : @Heap Z := fun r i => Z.of_nat (10 * r + i).

End Matrix2.

(** Evaluate reads and writes on the matrix heap. *)
Ltac heap_simpl :=
  unfold Matrix2.entries, Matrix2.write;
  repeat (rewrite ?Nat.eqb_refl, ?andb_false_r, ?andb_true_r; cbn).

(** * RenderingContext: capability flags, blending and stencil operations
      (src/unnamed/part_004) *)

Module ContextState.

(** A JavaScript value passed as an argument: [undefined], or a value the
    device understands. *)
Inductive JSValue : Type :=
  | undefined
  | defined (v : GLValue).

(** The entry points these properties use. *)
Inductive Call : Type :=
  | query (c : GLCall)
  | enable (cap : Z)
  | disable (cap : Z)
  | blendEquation (mode : Z)
  | blendEquationSeparate (modeRGB modeAlpha : GLValue)
  | blendFuncSeparate (srcRGB dstRGB srcAlpha dstAlpha : GLValue)
  | stencilFunc (func ref mask : JSValue)
  | stencilOp (fail zfail zpass : JSValue)
  | stencilOpSeparate (face : Z) (fail zfail zpass : GLValue).

(** The device: the registers the queries read, and the log. *)
Record State : Type := mkState {
  registers : gmap Z GLValue;
  log : list Call
}.

(** Effect of a command on the registers, as the WebGL API documents these
    entry points.  Arguments are stored as given (the device's validation of
    enumerants is not modelled).  The effect of the face-less [stencilFunc]
    and [stencilOp] is not modelled. *)
Definition effect (c : Call) (p : gmap Z GLValue) : gmap Z GLValue :=
  match c with
  | enable cap => <[cap := VBool true]> p
  | disable cap => <[cap := VBool false]> p
  | blendEquation mode =>
      <[WebGLConstant.BLEND_EQUATION_ALPHA := VNum mode]>
        (<[WebGLConstant.BLEND_EQUATION_RGB := VNum mode]> p)
  | blendEquationSeparate rgb alpha =>
      <[WebGLConstant.BLEND_EQUATION_ALPHA := alpha]>
        (<[WebGLConstant.BLEND_EQUATION_RGB := rgb]> p)
  | blendFuncSeparate srcRGB dstRGB srcAlpha dstAlpha =>
      <[WebGLConstant.BLEND_DST_ALPHA := dstAlpha]>
        (<[WebGLConstant.BLEND_SRC_ALPHA := srcAlpha]>
           (<[WebGLConstant.BLEND_DST_RGB := dstRGB]>
              (<[WebGLConstant.BLEND_SRC_RGB := srcRGB]> p)))
  | stencilOpSeparate face fail zfail zpass =>
      write_face face WebGLConstant.STENCIL_PASS_DEPTH_PASS
        WebGLConstant.STENCIL_BACK_PASS_DEPTH_PASS zpass
        (write_face face WebGLConstant.STENCIL_PASS_DEPTH_FAIL
           WebGLConstant.STENCIL_BACK_PASS_DEPTH_FAIL zfail
           (write_face face WebGLConstant.STENCIL_FAIL
              WebGLConstant.STENCIL_BACK_FAIL fail p))
  | query _ | stencilFunc _ _ _ | stencilOp _ _ _ => p
  end.

(** Computations on the device, ending in a value or a thrown error. *)
Definition CS (A : Type) : Type := State -> Completion A * State.

Definition cs_ret {A} (a : A) : CS A := fun st => (Normal a, st).

Definition cs_bind {A B} (m : CS A) (k : A -> CS B) : CS B :=
  fun st => match m st with
            | (Normal a, st') => k a st'
            | (Thrown e, st') => (Thrown e, st')
            end.

#[export] Instance CS_ret : MRet CS := @cs_ret.
#[export] Instance CS_bind : MBind CS := fun A B k m => cs_bind m k.

(** Invoke a command. *)
Definition command (c : Call) : CS unit :=
  fun st => (Normal tt, mkState (effect c (registers st)) (log st ++ [c])).

(** A getter of the context ([RenderingContext.query] names its query). *)
Definition get (s : RenderingContext.Slot) : CS GLValue :=
  fun st =>
    (RenderingContext.present s
       (device_answer (RenderingContext.query s)
          (mkDevice (registers st) ∅ [])),
     mkState (registers st) (log st ++ [query (RenderingContext.query s)])).

(** Reading a property for which the class declares a setter but no getter
    ([stencilFunc], [stencilRef], [stencilValueMask], [stencilFail],
    [stencilZFail], [stencilZPass]): the read yields [undefined] and does
    not reach the device. *)
Definition read_setter_only : CS JSValue := cs_ret undefined.

(** The [enable...] setters: [if (value) gl.enable(cap) else
    gl.disable(cap)]. *)
Definition toggle (cap : Z) (value : bool) : CS unit :=
  if value then command (enable cap) else command (disable cap).

Definition set_enableBlend := toggle WebGLConstant.BLEND.
Definition set_enableCullFace := toggle WebGLConstant.CULL_FACE.
Definition set_enableDepthTest := toggle WebGLConstant.DEPTH_TEST.
Definition set_enableDither := toggle WebGLConstant.DITHER.
Definition set_enablePolygonOffsetFill :=
  toggle WebGLConstant.POLYGON_OFFSET_FILL.
Definition set_enableSampleAlphaToCoverage :=
  toggle WebGLConstant.SAMPLE_ALPHA_TO_COVERAGE.
Definition set_enableSampleCoverage := toggle WebGLConstant.SAMPLE_COVERAGE.
Definition set_enableScissorTest := toggle WebGLConstant.SCISSOR_TEST.
Definition set_enableStencilTest := toggle WebGLConstant.STENCIL_TEST.
Definition set_enableRasterizerDiscard :=
  toggle WebGLConstant.RASTERIZER_DISCARD.

(** [set blendEquationRgb(value)]. *)
Definition set_blendEquationRgb (value : Z) : CS unit :=
  alpha ← get RenderingContext.blendEquationAlpha;
  command (blendEquationSeparate (VNum value) alpha).

(** [set blendEquationAlpha(value)]. *)
Definition set_blendEquationAlpha (value : Z) : CS unit :=
  rgb ← get RenderingContext.blendEquationRgb;
  command (blendEquationSeparate rgb (VNum value)).

(** [set blendEquation(value)]. *)
Definition set_blendEquation (value : Z) : CS unit :=
  command (blendEquation value).

(** [set blendFuncSrcRgb(value)]. *)
Definition set_blendFuncSrcRgb (value : Z) : CS unit :=
  dstRgb ← get RenderingContext.blendFuncDstRgb;
  srcAlpha ← get RenderingContext.blendFuncSrcAlpha;
  dstAlpha ← get RenderingContext.blendFuncDstAlpha;
  command (blendFuncSeparate (VNum value) dstRgb srcAlpha dstAlpha).

(** [set blendFuncDstRgb(value)]. *)
Definition set_blendFuncDstRgb (value : Z) : CS unit :=
  srcRgb ← get RenderingContext.blendFuncSrcRgb;
  srcAlpha ← get RenderingContext.blendFuncSrcAlpha;
  dstAlpha ← get RenderingContext.blendFuncDstAlpha;
  command (blendFuncSeparate srcRgb (VNum value) srcAlpha dstAlpha).

(** [set blendFuncSrcAlpha(value)]. *)
Definition set_blendFuncSrcAlpha (value : Z) : CS unit :=
  srcRgb ← get RenderingContext.blendFuncSrcRgb;
  dstRgb ← get RenderingContext.blendFuncDstRgb;
  dstAlpha ← get RenderingContext.blendFuncDstAlpha;
  command (blendFuncSeparate srcRgb dstRgb (VNum value) dstAlpha).

(** [set blendFuncDstAlpha(value)]. *)
Definition set_blendFuncDstAlpha (value : Z) : CS unit :=
  srcRgb ← get RenderingContext.blendFuncSrcRgb;
  dstRgb ← get RenderingContext.blendFuncDstRgb;
  srcAlpha ← get RenderingContext.blendFuncSrcAlpha;
  command (blendFuncSeparate srcRgb dstRgb srcAlpha (VNum value)).

(** [set blendFuncSrc(value)]. *)
Definition set_blendFuncSrc (value : Z) : CS unit :=
  dstRgb ← get RenderingContext.blendFuncDstRgb;
  dstAlpha ← get RenderingContext.blendFuncDstAlpha;
  command (blendFuncSeparate (VNum value) dstRgb (VNum value) dstAlpha).

(** [set blendFuncDst(value)]. *)
Definition set_blendFuncDst (value : Z) : CS unit :=
  srcRgb ← get RenderingContext.blendFuncSrcRgb;
  srcAlpha ← get RenderingContext.blendFuncSrcAlpha;
  command (blendFuncSeparate srcRgb (VNum value) srcAlpha (VNum value)).

(** [set stencilFunc(value)], [set stencilRef(value)] and
    [set stencilValueMask(value)]. *)
Definition set_stencilFunc (value : Z) : CS unit :=
  ref ← read_setter_only;
  mask ← read_setter_only;
  command (stencilFunc (defined (VNum value)) ref mask).

Definition set_stencilRef (value : Z) : CS unit :=
  func ← read_setter_only;
  mask ← read_setter_only;
  command (stencilFunc func (defined (VNum value)) mask).

Definition set_stencilValueMask (value : Z) : CS unit :=
  func ← read_setter_only;
  ref ← read_setter_only;
  command (stencilFunc func ref (defined (VNum value))).

(** [set stencilFailFront(value)], [set stencilZFailFront(value)] and
    [set stencilZPassFront(value)]. *)
Definition set_stencilFailFront (value : Z) : CS unit :=
  zfail ← get RenderingContext.stencilZFailFront;
  zpass ← get RenderingContext.stencilZPassFront;
  command (stencilOpSeparate WebGLConstant.FRONT (VNum value) zfail zpass).

Definition set_stencilZFailFront (value : Z) : CS unit :=
  fail ← get RenderingContext.stencilFailFront;
  zpass ← get RenderingContext.stencilZPassFront;
  command (stencilOpSeparate WebGLConstant.FRONT fail (VNum value) zpass).

Definition set_stencilZPassFront (value : Z) : CS unit :=
  fail ← get RenderingContext.stencilFailFront;
  zfail ← get RenderingContext.stencilZFailFront;
  command (stencilOpSeparate WebGLConstant.FRONT fail zfail (VNum value)).

(** [set stencilFailBack(value)], [set stencilZFailBack(value)] and
    [set stencilZPassBack(value)]. *)
Definition set_stencilFailBack (value : Z) : CS unit :=
  zfail ← get RenderingContext.stencilZFailBack;
  zpass ← get RenderingContext.stencilZPassBack;
  command (stencilOpSeparate WebGLConstant.BACK (VNum value) zfail zpass).

Definition set_stencilZFailBack (value : Z) : CS unit :=
  fail ← get RenderingContext.stencilFailBack;
  zpass ← get RenderingContext.stencilZPassBack;
  command (stencilOpSeparate WebGLConstant.BACK fail (VNum value) zpass).

Definition set_stencilZPassBack (value : Z) : CS unit :=
  fail ← get RenderingContext.stencilFailBack;
  zfail ← get RenderingContext.stencilZFailBack;
  command (stencilOpSeparate WebGLConstant.BACK fail zfail (VNum value)).

(** [set stencilFail(value)], [set stencilZFail(value)] and
    [set stencilZPass(value)]. *)
Definition set_stencilFail (value : Z) : CS unit :=
  zfail ← read_setter_only;
  zpass ← read_setter_only;
  command (stencilOp (defined (VNum value)) zfail zpass).

Definition set_stencilZFail (value : Z) : CS unit :=
  fail ← read_setter_only;
  zpass ← read_setter_only;
  command (stencilOp fail (defined (VNum value)) zpass).

Definition set_stencilZPass (value : Z) : CS unit :=
  fail ← read_setter_only;
  zfail ← read_setter_only;
  command (stencilOp fail zfail (defined (VNum value))).

(** How reading the property [s] ends in state [st]. *)
Definition reads (s : RenderingContext.Slot) (st : State)
    : Completion GLValue :=
  fst (get s st).

(** The calls [m] makes when run in [st]. *)
Definition issued {A} (m : CS A) (st : State) : list Call :=
  drop (length (log st)) (log (snd (m st))).

(** Running [setter v] leaves each property of [own] reading [v] and each
    property of [others] reading what it read before. *)
Definition sets_only {V} (setter : V -> CS unit) (shown : V -> GLValue)
    (own others : list RenderingContext.Slot) (st : State) (v : V) : Prop :=
  Forall (fun s => reads s (snd (setter v st)) = Normal (shown v)) own
  /\ Forall (fun s => reads s (snd (setter v st)) = reads s st) others.

(** The capability flags, the blend properties and the stencil operation
    properties. *)
Definition capabilities : list RenderingContext.Slot :=
  [ RenderingContext.enableBlend; RenderingContext.enableCullFace;
    RenderingContext.enableDepthTest; RenderingContext.enableDither;
    RenderingContext.enablePolygonOffsetFill;
    RenderingContext.enableSampleAlphaToCoverage;
    RenderingContext.enableSampleCoverage;
    RenderingContext.enableScissorTest; RenderingContext.enableStencilTest;
    RenderingContext.enableRasterizerDiscard ].

(** The register a property reads. *)
Definition register_of (s : RenderingContext.Slot) : Z :=
  match RenderingContext.query s with
  | gl.getParameter pname => pname
  | gl.isEnabled cap => cap
  | _ => 0
  end.

(** The properties of [l] that read another register than [s] does. *)
Definition without (s : RenderingContext.Slot)
    (l : list RenderingContext.Slot) : list RenderingContext.Slot :=
  List.filter (fun s' => negb (register_of s' =? register_of s)) l.

(** The ten capability setters, each with the property it sets. *)
Definition toggles : list ((bool -> CS unit) * RenderingContext.Slot) :=
  [ (set_enableBlend, RenderingContext.enableBlend);
    (set_enableCullFace, RenderingContext.enableCullFace);
    (set_enableDepthTest, RenderingContext.enableDepthTest);
    (set_enableDither, RenderingContext.enableDither);
    (set_enablePolygonOffsetFill, RenderingContext.enablePolygonOffsetFill);
    (set_enableSampleAlphaToCoverage,
     RenderingContext.enableSampleAlphaToCoverage);
    (set_enableSampleCoverage, RenderingContext.enableSampleCoverage);
    (set_enableScissorTest, RenderingContext.enableScissorTest);
    (set_enableStencilTest, RenderingContext.enableStencilTest);
    (set_enableRasterizerDiscard, RenderingContext.enableRasterizerDiscard) ].

(** The blend equation and blend function properties. *)
Definition blend_slots : list RenderingContext.Slot :=
  [ RenderingContext.blendEquationRgb; RenderingContext.blendEquationAlpha;
    RenderingContext.blendFuncSrcRgb; RenderingContext.blendFuncDstRgb;
    RenderingContext.blendFuncSrcAlpha; RenderingContext.blendFuncDstAlpha ].

(** The per-face stencil operation properties. *)
Definition stencil_op_slots : list RenderingContext.Slot :=
  [ RenderingContext.stencilFailFront; RenderingContext.stencilZFailFront;
    RenderingContext.stencilZPassFront; RenderingContext.stencilFailBack;
    RenderingContext.stencilZFailBack; RenderingContext.stencilZPassBack ].

(** A state with nothing set and nothing logged. *)
Definition state0 : State := mkState ∅ [].

End ContextState.

(** * Facts about the monad *)

Lemma issued_spec {A} (m : GL A) (d : Device) (l : list GLCall) :
  calls (snd (m d)) = calls d ++ l -> issued m d = l.
Proof. intros H. unfold issued. rewrite H. apply drop_app_length. Qed.

Lemma issued_command (c : GLCall) (d : Device) : issued (command c) d = [c].
Proof. apply issued_spec. reflexivity. Qed.

Lemma issued_unchanged {A} (m : GL A) (d : Device) (r : Completion A) :
  m d = (r, d) -> issued m d = [].
Proof.
  intros H. apply issued_spec. rewrite H. simpl. symmetry. apply app_nil_r.
Qed.

(** Run a setter symbolically and read the log off. *)
Ltac run_setter :=
  apply issued_spec; gl_unfold; rewrite <- ?app_assoc; reflexivity.

(** * Attribute *)

Module AttributeFacts.
Import Attribute.

Lemma get_enabled_eq (this : t) (d : Device) :
  get_enabled this d
  = (Normal (enabled this, with_enabledCache (Some (enabled this)) this), d).
Proof. reflexivity. Qed.

Lemma with_enabledCache_same (this : t) (b : bool) :
  enabledCache this = Some b -> with_enabledCache (Some b) this = this.
Proof. destruct this; simpl; intros ->; reflexivity. Qed.

(** [set enabled] in one equation: nothing when the flag read equals the
    request, one toggle otherwise. *)
Lemma set_enabled_eq (b : bool) (this : t) (d : Device) :
  set_enabled b this d
  = if Bool.eqb (enabled this) b
    then (Normal (with_enabledCache (Some (enabled this)) this), d)
    else (Normal (with_enabledCache (Some b) this),
          snd (command (if b then gl.enableVertexAttribArray (location this)
                        else gl.disableVertexAttribArray (location this)) d)).
Proof.
  unfold set_enabled. gl_unfold.
  destruct (Bool.eqb (default false (enabledCache this)) b) eqn:E;
    unfold enabled; rewrite E; [reflexivity|].
  destruct b; reflexivity.
Qed.

End AttributeFacts.

(** C1.  For every Attribute and boolean [b]: reading [enabled] returns the
    cached flag and leaves the device untouched; setting [enabled] to [b]
    when the cached flag already equals [b] leaves the device untouched
    (zero device calls) and the flag as it was (the whole object, when the
    cache holds [b]); setting it to the opposite of the cached flag issues
    exactly one device call, [enableVertexAttribArray] when [b] is true and
    [disableVertexAttribArray] when it is false, and the cache then holds
    [b]. *)
Theorem enabled_toggle_suppressed_when_cached :
  forall (this : Attribute.t) (b : bool) (d : Device),
    (exists this',
        Attribute.get_enabled this d
        = (Normal (Attribute.enabled this, this'), d)
        /\ Attribute.enabled this' = Attribute.enabled this
        /\ issued (Attribute.get_enabled this) d = [])
    /\ (Attribute.enabled this = b ->
        exists this',
          Attribute.set_enabled b this d = (Normal this', d)
          /\ issued (Attribute.set_enabled b this) d = []
          /\ Attribute.enabled this' = Attribute.enabled this
          /\ (Attribute.enabledCache this = Some b -> this' = this))
    /\ (Attribute.enabled this = negb b ->
        exists this' d',
          Attribute.set_enabled b this d = (Normal this', d')
          /\ issued (Attribute.set_enabled b this) d
             = [if b then gl.enableVertexAttribArray (Attribute.location this)
                else gl.disableVertexAttribArray (Attribute.location this)]
          /\ Attribute.enabledCache this' = Some b).
Proof.
  intros this b d. split; [|split].
  - eexists. rewrite AttributeFacts.get_enabled_eq.
    repeat split. eapply issued_unchanged. reflexivity.
  - intros Hb. eexists.
    assert (E : Attribute.set_enabled b this d
                = (Normal (Attribute.with_enabledCache
                             (Some (Attribute.enabled this)) this), d)).
    { rewrite AttributeFacts.set_enabled_eq, Hb, Bool.eqb_reflx. reflexivity. }
    split; [exact E|]. repeat split.
    + eapply issued_unchanged. exact E.
    + intros Hc. rewrite Hb. apply AttributeFacts.with_enabledCache_same, Hc.
  - intros Hb.
    assert (E : Bool.eqb (Attribute.enabled this) b = false).
    { rewrite Hb. destruct b; reflexivity. }
    do 2 eexists. rewrite AttributeFacts.set_enabled_eq, E.
    split; [reflexivity|]. split; [|reflexivity].
    apply issued_spec. rewrite AttributeFacts.set_enabled_eq, E.
    destruct b; reflexivity.
Qed.

Lemma enabled_toggle_suppressed_when_cached_witness :
  (exists this',
      Attribute.set_enabled true attribute_on device0 = (Normal this', device0)
      /\ issued (Attribute.set_enabled true attribute_on) device0 = []
      /\ Attribute.enabled this' = Attribute.enabled attribute_on
      /\ (Attribute.enabledCache attribute_on = Some true
          -> this' = attribute_on))
  /\ (exists this' d',
      Attribute.set_enabled false attribute_on device0 = (Normal this', d')
      /\ issued (Attribute.set_enabled false attribute_on) device0
         = [gl.disableVertexAttribArray 4]
      /\ Attribute.enabledCache this' = Some false).
Proof.
  split.
  - apply (proj1 (proj2 (enabled_toggle_suppressed_when_cached
                           attribute_on true device0))).
    reflexivity.
  - apply (proj2 (proj2 (enabled_toggle_suppressed_when_cached
                           attribute_on false device0))).
    reflexivity.
Defined.

(** C9.  A freshly constructed Attribute has no cached flag; the first read
    of [enabled], before any assignment, returns [false], issues no device
    call, and leaves [false] in the cache.  The only device call made so far
    is the constructor's [getAttribLocation]. *)
Theorem fresh_attribute_reads_disabled :
  forall (program : Attribute.Program) (info : Attribute.WebGLActiveInfo)
         (d : Device),
  exists this d1,
    Attribute.new program info d = (Normal this, d1)
    /\ Attribute.enabledCache this = None
    /\ Attribute.get_enabled this d1
       = (Normal (false, Attribute.with_enabledCache (Some false) this), d1)
    /\ issued (Attribute.get_enabled this) d1 = []
    /\ count_queries (issued (Attribute.get_enabled this) d1) = 0%nat.
Proof.
  intros program info d. do 2 eexists.
  split; [reflexivity|]. split; [reflexivity|]. split; [reflexivity|].
  assert (E : forall this d1, issued (Attribute.get_enabled this) d1 = []).
  { intros. eapply issued_unchanged. reflexivity. }
  rewrite E. split; reflexivity.
Qed.

Module SetterFacts.
Import Attribute.

Lemma set_enabled_true (this : t) (d : Device) :
  set_enabled true this d
  = (Normal (with_enabledCache (Some true) this), after_enable this d).
Proof.
  rewrite AttributeFacts.set_enabled_eq. unfold after_enable.
  destruct (enabled this); reflexivity.
Qed.

Lemma calls_after (c : GLCall) (d : Device) :
  calls (after c d) = calls d ++ [c].
Proof. reflexivity. Qed.

Lemma calls_after_enable (this : t) (d : Device) :
  calls (after_enable this d)
  = calls d ++ (if enabled this then []
                else [gl.enableVertexAttribArray (location this)]).
Proof.
  unfold after_enable. destruct (enabled this); simpl.
  - symmetry. apply app_nil_r.
  - reflexivity.
Qed.

(** [set value] with a setter that issues the call [c]. *)
Lemma set_value_eq (si : t -> AttributeValue -> GL unit)
    (value : AttributeValue + Buffer) (this : t) (d : Device) (c : GLCall) :
  (forall d', si (with_enabledCache (Some true) this) (realValue value) d'
              = command c d') ->
  set_value si value this d
  = (Normal (with_valueCache (Some (realValue value))
               (with_enabledCache (Some true) this)),
     after c (after (gl.bindBuffer WebGLConstant.ARRAY_BUFFER
                       (internal (buffer (realValue value))))
                (after_enable this d))).
Proof.
  intros Hsi. unfold set_value.
  unfold mbind, GL_bind, gl_bind at 1. rewrite set_enabled_true.
  unfold Buffer_bind. unfold gl_bind at 1.
  change (command ?x ?y) with (Normal tt, after x y) at 1.
  unfold gl_bind at 1. rewrite Hsi.
  reflexivity.
Qed.

(** The log tells which entry point a command invoked. *)
Lemma command_inj (c c' : GLCall) (d : Device) :
  (forall d', command c d' = command c' d') -> c = c'.
Proof.
  intros H. specialize (H d).
  apply (f_equal (fun r => calls (snd r))) in H.
  unfold command, gl_bind, invoke in H. simpl in H.
  apply app_inv_head in H. injection H. auto.
Qed.

Lemma count_pointer_calls_app (loc : Z) (l1 l2 : list GLCall) :
  count_pointer_calls loc (l1 ++ l2)
  = (count_pointer_calls loc l1 + count_pointer_calls loc l2)%nat.
Proof.
  unfold count_pointer_calls. rewrite filter_app, length_app. reflexivity.
Qed.

End SetterFacts.

(** C2.  For every Attribute whose [setterInternal] honours its contract
    (one pointer call for the attribute's location), every assignment to
    [value], of a descriptor or of a bare buffer, completes and issues, in
    this order: the toggle of [enabled = true] (an [enableVertexAttribArray]
    unless the flag was already set), [bindBuffer(ARRAY_BUFFER, b)] for the
    buffer [b] of the descriptor (the bare buffer itself), and the pointer
    call: the very call [setterInternal] makes when it is run on the
    attribute with its flag forced and on the descriptor that is then
    cached (the one assigned; a bare buffer wrapped in a descriptor with no
    other field).  The object is left with [enabledCache = true] and that
    descriptor in [valueCache].  The pointer call is not suppressed by the
    cache: assigning the same value again issues the bind and exactly one
    pointer call again, and leaves the object as it was. *)
Theorem value_assignment_always_reissues_pointer :
  forall (setterInternal : Attribute.t -> Attribute.AttributeValue -> GL unit),
    Attribute.describes_pointer setterInternal ->
    forall (this : Attribute.t)
           (value : Attribute.AttributeValue + Attribute.Buffer) (d : Device),
    let real :=
      match value with
      | inl v => v
      | inr b => Attribute.mkAttributeValue b None None None None None
      end in
    let bound :=
      match value with
      | inl v => Attribute.internal (Attribute.buffer v)
      | inr b => Attribute.internal b
      end in
    let forced :=
      Attribute.mkAttribute (Attribute.activeInfo this)
        (Attribute.location this) (Some true) (Attribute.valueCache this) in
    let this1 :=
      Attribute.mkAttribute (Attribute.activeInfo this)
        (Attribute.location this) (Some true) (Some real) in
    exists c c2 d1 d2,
      (* the pointer calls are those of [setterInternal] *)
      (forall d', setterInternal forced real d' = command c d')
      /\ (forall d', setterInternal this1 real d' = command c2 d')
      /\ Attribute.is_pointer_call (Attribute.location this) c = true
      /\ Attribute.is_pointer_call (Attribute.location this) c2 = true
      (* the first assignment *)
      /\ Attribute.set_value setterInternal value this d = (Normal this1, d1)
      /\ issued (Attribute.set_value setterInternal value this) d
         = (if Attribute.enabled this then []
            else [gl.enableVertexAttribArray (Attribute.location this)])
           ++ [gl.bindBuffer WebGLConstant.ARRAY_BUFFER bound; c]
      /\ Attribute.count_pointer_calls (Attribute.location this)
           (issued (Attribute.set_value setterInternal value this) d) = 1%nat
      (* the same assignment again *)
      /\ Attribute.set_value setterInternal value this1 d1
         = (Normal this1, d2)
      /\ issued (Attribute.set_value setterInternal value this1) d1
         = [gl.bindBuffer WebGLConstant.ARRAY_BUFFER bound; c2]
      /\ Attribute.count_pointer_calls (Attribute.location this)
           (issued (Attribute.set_value setterInternal value this1) d1)
         = 1%nat.
Proof.
  intros si Hsi this value d real bound forced this1.
  assert (Ereal : real = Attribute.realValue value)
    by (destruct value; reflexivity).
  assert (Ebound : bound = Attribute.internal (Attribute.buffer real))
    by (destruct value; reflexivity).
  destruct (Hsi forced real) as (c & Hc & Hrun).
  destruct (Hsi this1 real) as (c2 & Hc2 & Hrun2).
  change (Attribute.location forced) with (Attribute.location this) in Hc.
  change (Attribute.location this1) with (Attribute.location this) in Hc2.
  assert (E1 : Attribute.set_value si value this d
               = (Normal this1,
                  after c (after (gl.bindBuffer WebGLConstant.ARRAY_BUFFER
                                    bound)
                             (Attribute.after_enable this d)))).
  { rewrite (SetterFacts.set_value_eq si value this d c).
    - rewrite Ebound, Ereal. reflexivity.
    - rewrite <- Ereal. exact Hrun. }
  set (d1 := after c (after (gl.bindBuffer WebGLConstant.ARRAY_BUFFER bound)
                        (Attribute.after_enable this d))) in E1.
  assert (E2 : Attribute.set_value si value this1 d1
               = (Normal this1,
                  after c2 (after (gl.bindBuffer WebGLConstant.ARRAY_BUFFER
                                     bound) d1))).
  { rewrite (SetterFacts.set_value_eq si value this1 d1 c2).
    - rewrite Ebound, Ereal. reflexivity.
    - rewrite <- Ereal. exact Hrun2. }
  assert (I1 : issued (Attribute.set_value si value this) d
               = (if Attribute.enabled this then []
                  else [gl.enableVertexAttribArray (Attribute.location this)])
                 ++ [gl.bindBuffer WebGLConstant.ARRAY_BUFFER bound; c]).
  { apply issued_spec. rewrite E1. cbn [snd]. unfold d1.
    rewrite !SetterFacts.calls_after, SetterFacts.calls_after_enable.
    rewrite <- !app_assoc. reflexivity. }
  assert (I2 : issued (Attribute.set_value si value this1) d1
               = [gl.bindBuffer WebGLConstant.ARRAY_BUFFER bound; c2]).
  { apply issued_spec. rewrite E2. cbn [snd].
    rewrite !SetterFacts.calls_after, <- !app_assoc. reflexivity. }
  exists c, c2, d1. eexists.
  split; [exact Hrun|]. split; [exact Hrun2|].
  split; [exact Hc|]. split; [exact Hc2|].
  split; [exact E1|]. split; [exact I1|].
  split.
  { rewrite I1, SetterFacts.count_pointer_calls_app.
    unfold Attribute.count_pointer_calls.
    destruct (Attribute.enabled this); simpl;
      rewrite filter_cons_False by (simpl; discriminate);
      rewrite filter_cons_True by exact Hc; reflexivity. }
  split; [exact E2|]. split; [exact I2|].
  rewrite I2. unfold Attribute.count_pointer_calls.
  rewrite filter_cons_False by (simpl; discriminate).
  rewrite filter_cons_True by exact Hc2. reflexivity.
Qed.

Lemma float_setterInternal_describes_pointer :
  Attribute.describes_pointer Attribute.float_setterInternal.
Proof.
  intros this v. eexists. split; [|reflexivity]. simpl. apply Z.eqb_refl.
Qed.

Lemma integer_setterInternal_describes_pointer :
  Attribute.describes_pointer Attribute.integer_setterInternal.
Proof.
  intros this v. eexists. split; [|reflexivity]. simpl. apply Z.eqb_refl.
Qed.

(** The float leaf class, fed a bare buffer and then a full descriptor. *)
Lemma value_assignment_always_reissues_pointer_witness :
  Attribute.describes_pointer Attribute.float_setterInternal
  /\ issued (Attribute.set_value Attribute.float_setterInternal
               (inr buffer9) attribute_fresh) device0
     = [gl.enableVertexAttribArray 4;
        gl.bindBuffer WebGLConstant.ARRAY_BUFFER 9;
        gl.vertexAttribPointer 4 None None None None None]
  /\ issued (Attribute.set_value Attribute.float_setterInternal
               (inl descriptor9) attribute_fresh) device0
     = [gl.enableVertexAttribArray 4;
        gl.bindBuffer WebGLConstant.ARRAY_BUFFER 9;
        gl.vertexAttribPointer 4 (Some 3) (Some WebGLConstant.FLOAT)
          (Some false) (Some 12) (Some 0)]
  /\ exists d1,
       Attribute.set_value Attribute.float_setterInternal (inl descriptor9)
         attribute_fresh device0
       = (Normal (Attribute.mkAttribute
                    (Attribute.activeInfo attribute_fresh) 4 (Some true)
                    (Some descriptor9)), d1)
       /\ issued (Attribute.set_value Attribute.float_setterInternal
                    (inl descriptor9)
                    (Attribute.mkAttribute
                       (Attribute.activeInfo attribute_fresh) 4 (Some true)
                       (Some descriptor9))) d1
          = [gl.bindBuffer WebGLConstant.ARRAY_BUFFER 9;
             gl.vertexAttribPointer 4 (Some 3) (Some WebGLConstant.FLOAT)
               (Some false) (Some 12) (Some 0)].
Proof.
  assert (H : Attribute.describes_pointer Attribute.float_setterInternal).
  { intros this v. eexists. split; [|reflexivity]. simpl. apply Z.eqb_refl. }
  split; [exact H|].
  destruct (value_assignment_always_reissues_pointer
              Attribute.float_setterInternal H attribute_fresh (inr buffer9)
              device0)
    as (c & c2 & d1 & d2 & Hc & _ & _ & _ & _ & Hlog & _).
  destruct (value_assignment_always_reissues_pointer
              Attribute.float_setterInternal H attribute_fresh
              (inl descriptor9) device0)
    as (c' & c2' & d1' & d2' & Hc' & Hc2' & _ & _ & Hrun' & Hlog' & _
        & _ & Hlog2' & _).
  apply SetterFacts.command_inj with (d := device0) in Hc, Hc', Hc2'.
  subst c c' c2'.
  split; [exact Hlog|]. split; [exact Hlog'|].
  exists d1'. split; [exact Hrun'|exact Hlog2'].
Defined.

(** C7, as stated, fails for an Attribute: assigning a bare buffer and
    reading [value] back does not return the buffer but the descriptor built
    around it. *)
Lemma value_roundtrip_counterexample :
  exists this1 d1 r,
    Attribute.set_value Attribute.float_setterInternal (inr buffer9)
      attribute_fresh device0 = (Normal this1, d1)
    /\ Attribute.get_value this1 d1 = (Normal (Some r), d1)
    /\ r = Attribute.mkAttributeValue buffer9 None None None None None
    /\ (inl r : Attribute.AttributeValue + Attribute.Buffer) <> inr buffer9.
Proof.
  do 3 eexists. split.
  { apply (SetterFacts.set_value_eq Attribute.float_setterInternal
             (inr buffer9) attribute_fresh device0
             (gl.vertexAttribPointer 4 None None None None None)).
    intros d'. reflexivity. }
  split; [reflexivity|]. split; [reflexivity|]. discriminate.
Qed.

(** C7, amended.  For every Attribute whose [setterInternal] honours its
    contract and every value [v], assigning [v] to [value] and then reading
    [value] returns the descriptor the setter stored: [v] itself when [v]
    is a descriptor (it has a [buffer] field), and the descriptor
    [{ buffer: v }] when [v] is a bare buffer.  The read is served from the
    cache: it leaves the device untouched. *)
Theorem value_roundtrip_returns_descriptor :
  forall (setterInternal : Attribute.t -> Attribute.AttributeValue -> GL unit),
    Attribute.describes_pointer setterInternal ->
    forall (this : Attribute.t)
           (value : Attribute.AttributeValue + Attribute.Buffer) (d : Device),
    exists this1 d1,
      Attribute.set_value setterInternal value this d = (Normal this1, d1)
      /\ Attribute.get_value this1 d1
         = (Normal (Some (Attribute.realValue value)), d1)
      /\ issued (Attribute.get_value this1) d1 = []
      /\ Attribute.realValue value
         = match value with
           | inl v => v
           | inr b => Attribute.mkAttributeValue b None None None None None
           end.
Proof.
  intros si Hsi this value d.
  destruct (Hsi (Attribute.with_enabledCache (Some true) this)
                (Attribute.realValue value)) as (c & _ & Hrun).
  do 2 eexists. split.
  - apply (SetterFacts.set_value_eq si value this d c Hrun).
  - split; [reflexivity|]. split.
    + eapply issued_unchanged. reflexivity.
    + destruct value; reflexivity.
Qed.

Lemma value_roundtrip_returns_descriptor_witness :
  Attribute.describes_pointer Attribute.integer_setterInternal
  /\ exists this1 d1,
       Attribute.set_value Attribute.integer_setterInternal (inr buffer9)
         attribute_fresh device0 = (Normal this1, d1)
       /\ Attribute.get_value this1 d1
          = (Normal (Some (Attribute.mkAttributeValue buffer9
                             None None None None None)), d1).
Proof.
  assert (H : Attribute.describes_pointer Attribute.integer_setterInternal).
  { intros this v. eexists. split; [|reflexivity]. simpl. apply Z.eqb_refl. }
  split; [exact H|].
  destruct (value_roundtrip_returns_descriptor
              Attribute.integer_setterInternal H attribute_fresh (inr buffer9)
              device0) as (this1 & d1 & Hrun & Hget & _).
  exists this1, d1. split; [exact Hrun|exact Hget].
Defined.

(** * Texture2D *)

Module Texture2DFacts.
Import Texture2D.

(** The [switch] of [get type] and the table agree on every format. *)
Lemma get_type_unset (this : t) (d : Device) :
  truthy (type_ this) = false ->
  get_type this d = default_type (internalFormat this) d.
Proof.
  intros H. unfold get_type. rewrite H.
  generalize (internalFormat this) as f. intros f.
  unfold default_type, default_type_table, table_lookup, case_of, existsb.
  case_tests.
Qed.

Lemma table_lookup_None (f : Z) (tbl : list (Z * Z)) :
  ~ In f (map fst tbl) -> table_lookup f tbl = None.
Proof.
  induction tbl as [|[k v] tbl IH]; simpl; intros H; [reflexivity|].
  destruct (Z.eqb_spec f k) as [->|Hne].
  - exfalso. apply H. left. reflexivity.
  - apply IH. intros Hin. apply H. right. exact Hin.
Qed.

Lemma table_lookup_In (f ty : Z) :
  In (f, ty) default_type_table -> table_lookup f default_type_table = Some ty.
Proof.
  unfold default_type_table. simpl.
  intros H.
  repeat (destruct H as [H|H];
          [injection H as <- <-; reflexivity|]).
  contradiction.
Qed.

Lemma get_type_set (v : Z) (this : t) (d : Device) :
  v <> 0 -> get_type (set_type v this) d = (Normal v, d).
Proof.
  intros Hv. unfold get_type, set_type, truthy. cbn [type_].
  destruct (Z.eqb_spec v 0) as [E|_]; [contradiction|]. reflexivity.
Qed.

Lemma get_format_total (this : t) (d : Device) :
  exists fmt, get_format this d = (Normal fmt, d).
Proof.
  unfold get_format.
  repeat match goal with
         | |- context [if ?b then _ else _] => destruct b
         end; eexists; reflexivity.
Qed.

End Texture2DFacts.

(** C10.  While [type] is unset, reading it yields what the table of
    default data types gives for [internalFormat] and nothing else: the
    listed format's data type (RGBA and RGB8 give UNSIGNED_BYTE, R32F and
    RGBA16F give FLOAT, RGB10_A2 gives UNSIGNED_INT_2_10_10_10_REV), and a
    thrown [Error] for every format outside the table.  Once [type] has been
    set to a member of [TextureDataType] (all of which are non-zero device
    constants), every read returns that value whatever [internalFormat]
    is. *)
Theorem type_default_by_internal_format :
  forall (this : Texture2D.t),
    (Texture2D.type_ this = None ->
       forall d, Texture2D.get_type this d
                 = Texture2D.default_type (Texture2D.internalFormat this) d)
    /\ (forall f ty d,
          In (f, ty) Texture2D.default_type_table ->
          Texture2D.default_type f d = (Normal ty, d))
    /\ (forall f d,
          ~ In f (map fst Texture2D.default_type_table) ->
          Texture2D.default_type f d
          = (Thrown "Unset data type without default for selected format.", d))
    /\ (In (WebGLConstant.RGBA, WebGLConstant.UNSIGNED_BYTE)
          Texture2D.default_type_table
        /\ In (WebGLConstant.RGB8, WebGLConstant.UNSIGNED_BYTE)
             Texture2D.default_type_table
        /\ In (WebGLConstant.R32F, WebGLConstant.FLOAT)
             Texture2D.default_type_table
        /\ In (WebGLConstant.RGBA16F, WebGLConstant.FLOAT)
             Texture2D.default_type_table
        /\ In (WebGLConstant.RGB10_A2,
                WebGLConstant.UNSIGNED_INT_2_10_10_10_REV)
             Texture2D.default_type_table)
    /\ (forall v, v <> 0 ->
          forall f d,
            Texture2D.get_type
              (Texture2D.with_internalFormat f (Texture2D.set_type v this)) d
            = (Normal v, d)).
Proof.
  intros this. split; [|split; [|split; [|split]]].
  - intros H d. apply Texture2DFacts.get_type_unset. rewrite H. reflexivity.
  - intros f ty d H. unfold Texture2D.default_type.
    rewrite (Texture2DFacts.table_lookup_In f ty H). reflexivity.
  - intros f d H. unfold Texture2D.default_type.
    rewrite (Texture2DFacts.table_lookup_None f _ H). reflexivity.
  - unfold Texture2D.default_type_table. simpl. tauto.
  - intros v Hv f d.
    change (Texture2D.with_internalFormat f (Texture2D.set_type v this))
      with (Texture2D.set_type v (Texture2D.with_internalFormat f this)).
    apply Texture2DFacts.get_type_set, Hv.
Qed.

Lemma type_default_by_internal_format_witness :
  Texture2D.get_type texture_rgba device0
  = (Normal WebGLConstant.UNSIGNED_BYTE, device0)
  /\ Texture2D.default_type WebGLConstant.RED device0
     = (Thrown "Unset data type without default for selected format.", device0)
  /\ Texture2D.get_type
       (Texture2D.with_internalFormat WebGLConstant.RED
          (Texture2D.set_type WebGLConstant.FLOAT texture_rgba)) device0
     = (Normal WebGLConstant.FLOAT, device0).
Proof.
  destruct (type_default_by_internal_format texture_rgba)
    as (Hunset & Hlisted & Hother & _ & Hset).
  split; [|split].
  - rewrite (Hunset eq_refl device0).
    apply Hlisted. simpl. tauto.
  - apply Hother. simpl. intros H.
    repeat (destruct H as [H|H]; [discriminate H|]). exact H.
  - apply Hset. discriminate.
Defined.

Module UpdateFacts.
Import Texture2D.

(** [update] up to the reading of the two getters. *)
Lemma update_eq (textureUnit : Z) (this : t) (d : Device) :
  update textureUnit this d
  = let d2 := after (gl.bindTexture (target this) (texture this))
                (after (gl.activeTexture (TEXTURE0 + textureUnit)) d) in
    match get_format this d2 with
    | (Normal fmt, d3) =>
        match get_type this d3 with
        | (Normal ty, d4) =>
            command
              match width this, height this with
              | Some w, Some h =>
                  gl.texImage2D_sized (target this) (lod this)
                    (internalFormat this) w h 0 fmt ty (pixels this)
              | _, _ =>
                  gl.texImage2D_source (target this) (lod this)
                    (internalFormat this) fmt ty (pixels this)
              end d4
        | (Thrown e, d4) => (Thrown e, d4)
        end
    | (Thrown e, d3) => (Thrown e, d3)
    end.
Proof.
  unfold update, Texture2D.bind.
  unfold mbind, GL_bind, gl_bind at 1.
  change (command ?x ?y) with (Normal tt, after x y) at 1.
  unfold gl_bind at 1.
  change (command ?x ?y) with (Normal tt, after x y) at 1.
  cbv zeta.
  destruct (width this), (height this); unfold gl_bind;
    destruct (get_format this _) as [[fmt|e] d3];
    try destruct (get_type this d3) as [[ty|e'] d4]; reflexivity.
Qed.

End UpdateFacts.

Module GetterFacts.
Import Texture2D.

(** Neither getter touches the device, and what it returns does not
    depend on the device. *)
Lemma get_type_indep (this : t) (d d' : Device) (r : Completion Z) :
  get_type this d = (r, d) -> get_type this d' = (r, d').
Proof.
  unfold get_type. split_ifs; gl_unfold; intros [= <-]; reflexivity.
Qed.

Lemma get_format_indep (this : t) (d d' : Device) (r : Completion Z) :
  get_format this d = (r, d) -> get_format this d' = (r, d').
Proof.
  unfold get_format. split_ifs; gl_unfold; intros [= <-]; reflexivity.
Qed.

End GetterFacts.

(** C8, as stated, fails: with [type] unset and an internal format that has
    no default data type (here RED), [update] selects the unit and binds the
    texture, then throws while evaluating [this.type]; no [texImage2D] call
    is issued. *)
Lemma update_upload_counterexample :
  Texture2D.update 0 texture_red device0
  = (Thrown "Unset data type without default for selected format.",
     mkDevice (<[WebGLConstant.ACTIVE_TEXTURE := VNum 0x84C0]> ∅) ∅
       [gl.activeTexture 0x84C0; gl.bindTexture WebGLConstant.TEXTURE_2D 7])
  /\ length (filter (fun c => Texture2D.is_upload c = true)
               (issued (Texture2D.update 0 texture_red) device0)) <> 1%nat.
Proof.
  split.
  - vm_compute. reflexivity.
  - vm_compute. discriminate.
Qed.

(** C8, amended.  Every call to [update(textureUnit)] first makes the given
    unit the active texture unit and then binds the texture's handle to its
    target.  When reading [type] succeeds (it has been set, or the internal
    format has a default data type), [update] then issues exactly one
    [texImage2D] call and returns: the sized form when both [width] and
    [height] are set, the unsized form otherwise.  When reading [type]
    throws, [update] throws the same error after those two calls, and
    issues no upload. *)
Theorem update_binds_then_uploads :
  forall (this : Texture2D.t) (textureUnit : Z) (d : Device),
  exists fmt,
    Texture2D.get_format this d = (Normal fmt, d)
    /\ (forall ty,
          Texture2D.get_type this d = (Normal ty, d) ->
          fst (Texture2D.update textureUnit this d) = Normal tt
          /\ issued (Texture2D.update textureUnit this) d
             = [gl.activeTexture (Texture2D.TEXTURE0 + textureUnit);
                gl.bindTexture (Texture2D.target this) (Texture2D.texture this);
                match Texture2D.width this, Texture2D.height this with
                | Some w, Some h =>
                    gl.texImage2D_sized (Texture2D.target this)
                      (Texture2D.lod this) (Texture2D.internalFormat this)
                      w h 0 fmt ty (Texture2D.pixels this)
                | _, _ =>
                    gl.texImage2D_source (Texture2D.target this)
                      (Texture2D.lod this) (Texture2D.internalFormat this)
                      fmt ty (Texture2D.pixels this)
                end])
    /\ (forall message,
          Texture2D.get_type this d = (Thrown message, d) ->
          fst (Texture2D.update textureUnit this d) = Thrown message
          /\ issued (Texture2D.update textureUnit this) d
             = [gl.activeTexture (Texture2D.TEXTURE0 + textureUnit);
                gl.bindTexture (Texture2D.target this)
                  (Texture2D.texture this)]).
Proof.
  intros this u d.
  destruct (Texture2DFacts.get_format_total this d) as [fmt Hfmt].
  exists fmt. split; [exact Hfmt|].
  set (d2 := after
               (gl.bindTexture (Texture2D.target this) (Texture2D.texture this))
               (after (gl.activeTexture (Texture2D.TEXTURE0 + u)) d)).
  assert (Hd2 : calls d2 = calls d ++
                  [gl.activeTexture (Texture2D.TEXTURE0 + u);
                   gl.bindTexture (Texture2D.target this)
                     (Texture2D.texture this)]).
  { unfold d2. rewrite !SetterFacts.calls_after, <- app_assoc. reflexivity. }
  split.
  - intros ty Hty.
    assert (E : Texture2D.update u this d
                = command
                    match Texture2D.width this, Texture2D.height this with
                    | Some w, Some h =>
                        gl.texImage2D_sized (Texture2D.target this)
                          (Texture2D.lod this) (Texture2D.internalFormat this)
                          w h 0 fmt ty (Texture2D.pixels this)
                    | _, _ =>
                        gl.texImage2D_source (Texture2D.target this)
                          (Texture2D.lod this) (Texture2D.internalFormat this)
                          fmt ty (Texture2D.pixels this)
                    end d2).
    { rewrite UpdateFacts.update_eq. cbv zeta. fold d2.
      rewrite (GetterFacts.get_format_indep this d d2 _ Hfmt).
      rewrite (GetterFacts.get_type_indep this d d2 _ Hty). reflexivity. }
    split; [rewrite E; reflexivity|].
    apply issued_spec. rewrite E.
    change (calls (snd (command ?c d2))) with (calls d2 ++ [c]).
    rewrite Hd2, <- app_assoc. reflexivity.
  - intros msg Hty.
    assert (E : Texture2D.update u this d = (Thrown msg, d2)).
    { rewrite UpdateFacts.update_eq. cbv zeta. fold d2.
      rewrite (GetterFacts.get_format_indep this d d2 _ Hfmt).
      rewrite (GetterFacts.get_type_indep this d d2 _ Hty). reflexivity. }
    split; [rewrite E; reflexivity|].
    apply issued_spec. rewrite E. exact Hd2.
Qed.

Lemma update_binds_then_uploads_witness :
  (Texture2D.get_type texture_rgba device0
   = (Normal WebGLConstant.UNSIGNED_BYTE, device0)
   /\ issued (Texture2D.update 3 texture_rgba) device0
      = [gl.activeTexture (0x84C0 + 3);
         gl.bindTexture WebGLConstant.TEXTURE_2D 7;
         gl.texImage2D_source WebGLConstant.TEXTURE_2D 0 WebGLConstant.RGBA
           WebGLConstant.RGBA WebGLConstant.UNSIGNED_BYTE (ImageData 1)])
  /\ (Texture2D.get_type texture_red device0
      = (Thrown "Unset data type without default for selected format.",
         device0)
      /\ issued (Texture2D.update 3 texture_red) device0
         = [gl.activeTexture (0x84C0 + 3);
            gl.bindTexture WebGLConstant.TEXTURE_2D 7]).
Proof.
  split.
  - split; [reflexivity|].
    destruct (update_binds_then_uploads texture_rgba 3 device0)
      as (fmt & Hfmt & Hok & _).
    injection Hfmt as <-.
    exact (proj2 (Hok WebGLConstant.UNSIGNED_BYTE eq_refl)).
  - split; [reflexivity|].
    destruct (update_binds_then_uploads texture_red 3 device0)
      as (fmt & _ & _ & Hthrow).
    exact (proj2 (Hthrow _ eq_refl)).
Defined.

(** * Uniform leaf classes *)

(** C5.  For each of the Uniform leaf classes and every iterable value, the
    setter completes after exactly one device call.  That call is the entry
    point the device names for the class's numeric kind and shape (the float
    4x4 matrix class calls [uniformMatrix4fv], the integer 3-vector class
    [uniform3iv]), and its arguments are the uniform's location, the
    transpose flag for the matrix classes (none for the others), the assigned
    value, and the source offset and length. *)
Theorem uniform_setter_issues_one_matching_call :
  forall (c : Uniform.Class) (this : Uniform.t) (value : list number)
         (d : Device),
  exists call,
    Uniform.iterableSetter c this value d
    = (Normal tt, after call d)
    /\ issued (Uniform.iterableSetter c this value) d = [call]
    /\ is_query call = false
    /\ Uniform.call_name call
       = Uniform.entry_point (Uniform.kind_of c) (Uniform.shape_of c)
    /\ Uniform.call_name call
       = Some match c with
              | Uniform.FloatMatrix4x4Uniform => "uniformMatrix4fv"
              | Uniform.FloatMatrix4x3Uniform => "uniformMatrix4x3fv"
              | Uniform.IntegerVector3Uniform => "uniform3iv"
              | Uniform.FloatVector2Uniform => "uniform2fv"
              | Uniform.UnsignedIntegerVector2Uniform => "uniform2uiv"
              end%string
    /\ Uniform.call_arguments call
       = Some (Uniform.mkArguments (Uniform.location this)
                 (if Uniform.is_matrix (Uniform.shape_of c)
                  then Some (Uniform.transpose this) else None)
                 value (Uniform.sourceOffset this) (Uniform.sourceLength this)).
Proof.
  intros c this value d.
  destruct c; eexists; (split; [reflexivity|]);
    (split; [apply issued_command|]); repeat split.
Qed.

(** C6, as stated, fails: handed fifteen numbers, which is not a multiple of
    sixteen, the float 4x4 matrix setter raises nothing and calls the
    device once. *)
Lemma matrix_length_not_validated_counterexample :
  Uniform.exact_multiple Uniform.mat4 fifteen = false
  /\ fst (Uniform.FloatMatrix4x4Uniform_arraySetter uniform_mat4 fifteen
            device0)
     = Normal tt
  /\ issued (Uniform.FloatMatrix4x4Uniform_arraySetter uniform_mat4 fifteen)
       device0
     = [gl.uniformMatrix4fv 11 false fifteen None None].
Proof.
  split; [reflexivity|]. split; [reflexivity|]. apply issued_command.
Qed.

(** C6, amended.  A matrix-form Uniform setter does not look at the length
    of the source sequence: for every sequence, whether or not its length is
    a multiple of rows times columns, it raises no error and issues exactly
    one device call, the matrix upload, passing the sequence on as it is. *)
Theorem matrix_setter_passes_any_length :
  forall (c : Uniform.Class),
    Uniform.is_matrix (Uniform.shape_of c) = true ->
    forall (this : Uniform.t) (value : list number) (d : Device),
    exists call,
      fst (Uniform.iterableSetter c this value d) = Normal tt
      /\ issued (Uniform.iterableSetter c this value) d = [call]
      /\ Uniform.call_arguments call
         = Some (Uniform.mkArguments (Uniform.location this)
                   (Some (Uniform.transpose this)) value
                   (Uniform.sourceOffset this) (Uniform.sourceLength this)).
Proof.
  intros c Hc this value d.
  destruct c; try discriminate Hc; eexists;
    (split; [reflexivity|]); (split; [apply issued_command|reflexivity]).
Qed.

Lemma matrix_setter_passes_any_length_witness :
  Uniform.exact_multiple (Uniform.shape_of Uniform.FloatMatrix4x3Uniform)
    fifteen = false
  /\ exists call,
       fst (Uniform.iterableSetter Uniform.FloatMatrix4x3Uniform uniform_mat4
              fifteen device0) = Normal tt
       /\ issued (Uniform.iterableSetter Uniform.FloatMatrix4x3Uniform
                    uniform_mat4 fifteen) device0 = [call]
       /\ Uniform.call_arguments call
          = Some (Uniform.mkArguments 11 (Some false) fifteen None None).
Proof.
  split; [reflexivity|].
  apply (matrix_setter_passes_any_length Uniform.FloatMatrix4x3Uniform eq_refl
           uniform_mat4 fifteen device0).
Defined.

(** * RenderingContext *)

Module ContextFacts.
Import RenderingContext.

Lemma query_is_query (s : Slot) : is_query (query s) = true.
Proof. destruct s; reflexivity. Qed.

(** A query leaves the registers alone. *)
Lemma query_effect (s : Slot) (p : gmap Z GLValue) :
  device_effect (query s) p = p.
Proof. destruct s; reflexivity. Qed.

(** A getter in one equation: what it makes of the answer of the device,
    and one more entry in the log. *)
Lemma get_eq (s : Slot) (d : Device) :
  get s d
  = (present s (device_answer (query s) d),
     mkDevice (params d) (attribs d) (calls d ++ [query s])).
Proof.
  unfold get. gl_unfold. rewrite query_effect.
  destruct (present s _); reflexivity.
Qed.

Lemma issued_get (s : Slot) (d : Device) : issued (get s) d = [query s].
Proof. apply issued_spec. rewrite get_eq. reflexivity. Qed.

(** A second read runs only when the first one returned. *)
Lemma get_twice_eq (s : Slot) (d : Device) :
  (get s;; get s) d
  = match present s (device_answer (query s) d) with
    | Normal _ =>
        (present s (device_answer (query s) d),
         mkDevice (params d) (attribs d) (calls d ++ [query s; query s]))
    | Thrown e =>
        (Thrown e, mkDevice (params d) (attribs d) (calls d ++ [query s]))
    end.
Proof.
  unfold mbind, GL_bind, gl_bind. rewrite get_eq.
  destruct (present s (device_answer (query s) d)) as [v|e] eqn:E;
    [|reflexivity].
  rewrite get_eq.
  replace (device_answer (query s)
             (mkDevice (params d) (attribs d) (calls d ++ [query s])))
    with (device_answer (query s) d) by (destruct s; reflexivity).
  rewrite E. cbn [calls]. rewrite <- app_assoc. reflexivity.
Qed.

Lemma issued_get_twice (s : Slot) (d : Device) (v : GLValue) :
  present s (device_answer (query s) d) = Normal v ->
  issued (get s;; get s) d = [query s; query s].
Proof.
  intros E. apply issued_spec. rewrite get_twice_eq, E. reflexivity.
Qed.

Lemma spreads_listed (s : Slot) :
  In s [scissorBox; viewport; blendColor; clearColor; colorMask; depthRange]
  -> spreads s = true.
Proof.
  simpl. intros H.
  repeat (destruct H as [<-|H]; [reflexivity|]). contradiction.
Qed.

Lemma spreads_unlisted (s : Slot) :
  ~ In s [activeTextureUnit; scissorBox; viewport; blendColor; clearColor;
          colorMask; depthRange]
  -> present s = Normal.
Proof.
  intros H. destruct s; try reflexivity; exfalso; apply H; simpl; tauto.
Qed.

Lemma present_spread (s : Slot) (answer : GLValue) :
  spreads s = true ->
  present s answer
  = if iterable answer then Normal answer else Thrown "TypeError".
Proof. destruct s; simpl; intros H; try discriminate H; reflexivity. Qed.

Lemma present_thrown (s : Slot) (answer : GLValue) (e : string) :
  present s answer = Thrown e ->
  spreads s = true /\ iterable answer = false /\ e = "TypeError"%string.
Proof.
  destruct s; simpl; try discriminate;
    destruct (iterable answer); try discriminate;
    intros [= <-]; auto.
Qed.

End ContextFacts.

(** C4, as stated, fails: two consecutive reads of [depthFunc] with no
    write in between issue two device queries, not at most one. *)
Lemma getter_cache_counterexample :
  issued (RenderingContext.get RenderingContext.depthFunc;;
          RenderingContext.get RenderingContext.depthFunc) device0
  = [gl.getParameter WebGLConstant.DEPTH_FUNC;
     gl.getParameter WebGLConstant.DEPTH_FUNC]
  /\ ~ (count_queries
          (issued (RenderingContext.get RenderingContext.depthFunc;;
                   RenderingContext.get RenderingContext.depthFunc) device0)
        <= 1)%nat.
Proof.
  rewrite (ContextFacts.issued_get_twice RenderingContext.depthFunc device0
             VNull eq_refl).
  split; [reflexivity|].
  vm_compute. lia.
Qed.

(** C4, amended.  For every RenderingContext state slot exposed as a
    getter/setter pair, every read of the getter, the first and each later
    one alike, issues exactly one device query; the context keeps no cache,
    so there is nothing for a setter to invalidate.  What the read returns
    is made of the device's answer alone: the answer itself; for
    [activeTextureUnit] the answer, converted to a number, minus TEXTURE0
    (so -33984 on a [null] answer); and for the six getters that spread the
    answer into a constructor ([scissorBox], [viewport], [blendColor],
    [clearColor], [colorMask], [depthRange]) the tuple, or a thrown
    TypeError when the answer is not a tuple.  Two consecutive reads with
    no write in between issue exactly two queries when the first read
    returns, and one when it throws (the second read is then never
    reached); a read that follows a write ([depthFunc], [viewport]) queries
    the device again. *)
Theorem getter_queries_device_every_time :
  forall (s : RenderingContext.Slot) (d : Device),
    let answer := device_answer (RenderingContext.query s) d in
    let twice := (RenderingContext.get s;; RenderingContext.get s) in
    (* one query per read *)
    issued (RenderingContext.get s) d = [RenderingContext.query s]
    /\ count_queries (issued (RenderingContext.get s) d) = 1%nat
    (* what the read returns *)
    /\ (~ In s [RenderingContext.activeTextureUnit;
                RenderingContext.scissorBox; RenderingContext.viewport;
                RenderingContext.blendColor; RenderingContext.clearColor;
                RenderingContext.colorMask; RenderingContext.depthRange] ->
        fst (RenderingContext.get s d) = Normal answer)
    /\ (s = RenderingContext.activeTextureUnit ->
        fst (RenderingContext.get s d)
        = Normal match answer with
                 | VNum n => VNum (n - 0x84c0)
                 | VBool true => VNum (1 - 0x84c0)
                 | VBool false | VNull | VTuple [] => VNum (- 0x84c0)
                 | VTuple [x] => VNum (x - 0x84c0)
                 | VTuple _ | VNaN => VNaN
                 end)
    /\ (In s [RenderingContext.scissorBox; RenderingContext.viewport;
              RenderingContext.blendColor; RenderingContext.clearColor;
              RenderingContext.colorMask; RenderingContext.depthRange] ->
        (forall l, answer = VTuple l ->
                   fst (RenderingContext.get s d) = Normal (VTuple l))
        /\ ((forall l, answer <> VTuple l) ->
            fst (RenderingContext.get s d) = Thrown "TypeError"))
    (* two reads in a row *)
    /\ (forall v,
          fst (RenderingContext.get s d) = Normal v ->
          fst (twice d) = Normal v
          /\ issued twice d
             = [RenderingContext.query s; RenderingContext.query s]
          /\ count_queries (issued twice d) = 2%nat)
    /\ (forall e,
          fst (RenderingContext.get s d) = Thrown e ->
          fst (twice d) = Thrown e
          /\ issued twice d = [RenderingContext.query s])
    (* a read after a write *)
    /\ (forall v,
          issued (RenderingContext.get RenderingContext.depthFunc;;
                  RenderingContext.set_depthFunc v;;
                  RenderingContext.get RenderingContext.depthFunc) d
          = [gl.getParameter WebGLConstant.DEPTH_FUNC;
             gl.depthFunc v;
             gl.getParameter WebGLConstant.DEPTH_FUNC])
    /\ (forall x y w h l,
          device_answer (gl.getParameter WebGLConstant.VIEWPORT) d = VTuple l ->
          issued (RenderingContext.get RenderingContext.viewport;;
                  RenderingContext.set_viewport (x, y, w, h);;
                  RenderingContext.get RenderingContext.viewport) d
          = [gl.getParameter WebGLConstant.VIEWPORT;
             gl.viewport x y w h;
             gl.getParameter WebGLConstant.VIEWPORT]).
Proof.
  intros s d answer twice.
  assert (Hq : count_queries [RenderingContext.query s] = 1%nat).
  { unfold count_queries.
    rewrite filter_cons_True by apply ContextFacts.query_is_query.
    reflexivity. }
  assert (Hfst : fst (RenderingContext.get s d)
                 = RenderingContext.present s answer).
  { rewrite ContextFacts.get_eq. reflexivity. }
  split; [apply ContextFacts.issued_get|].
  split; [rewrite ContextFacts.issued_get; exact Hq|].
  split.
  { intros Hs. rewrite Hfst, (ContextFacts.spreads_unlisted s Hs).
    reflexivity. }
  split.
  { intros ->. rewrite Hfst. unfold RenderingContext.present,
      RenderingContext.minus, RenderingContext.to_number.
    destruct answer as [n|[|]|[|x [|y l]]| |]; reflexivity. }
  split.
  { intros Hs. apply ContextFacts.spreads_listed in Hs.
    rewrite Hfst, (ContextFacts.present_spread s answer Hs).
    split.
    - intros l ->. reflexivity.
    - intros Hl. destruct answer; try reflexivity.
      exfalso. exact (Hl _ eq_refl). }
  split.
  { intros v Hv. rewrite Hfst in Hv. unfold twice.
    split; [rewrite ContextFacts.get_twice_eq; fold answer; rewrite Hv;
            reflexivity|].
    rewrite (ContextFacts.issued_get_twice s d v Hv).
    split; [reflexivity|].
    unfold count_queries.
    rewrite !filter_cons_True by apply ContextFacts.query_is_query.
    reflexivity. }
  split.
  { intros e He. rewrite Hfst in He. unfold twice.
    split.
    - rewrite ContextFacts.get_twice_eq. fold answer. rewrite He.
      reflexivity.
    - apply issued_spec. rewrite ContextFacts.get_twice_eq. fold answer.
      rewrite He. reflexivity. }
  split.
  - intros v. apply issued_spec. gl_unfold.
    rewrite <- !app_assoc. reflexivity.
  - intros x y w h l Hl. apply issued_spec.
    unfold mbind, GL_bind, gl_bind.
    rewrite ContextFacts.get_eq.
    unfold RenderingContext.query at 1. rewrite Hl.
    cbn [RenderingContext.present RenderingContext.iterable].
    unfold RenderingContext.set_viewport. gl_unfold.
    rewrite ContextFacts.get_eq. cbn [snd calls].
    rewrite <- !app_assoc. reflexivity.
Qed.

(** A device that has not reported a viewport yet, and one that has. *)
Lemma getter_queries_device_every_time_witness :
  fst (RenderingContext.get RenderingContext.depthFunc device0) = Normal VNull
  /\ fst (RenderingContext.get RenderingContext.activeTextureUnit device0)
     = Normal (VNum (-33984))
  /\ fst (RenderingContext.get RenderingContext.viewport device0)
     = Thrown "TypeError"
  /\ issued (RenderingContext.get RenderingContext.viewport;;
             RenderingContext.get RenderingContext.viewport) device0
     = [gl.getParameter WebGLConstant.VIEWPORT]
  /\ issued (RenderingContext.get RenderingContext.viewport;;
             RenderingContext.get RenderingContext.viewport) device_viewport
     = [gl.getParameter WebGLConstant.VIEWPORT;
        gl.getParameter WebGLConstant.VIEWPORT]
  /\ fst (RenderingContext.get RenderingContext.viewport device_viewport)
     = Normal (VTuple [0; 0; 300; 150]).
Proof.
  split; [|split; [|split; [|split; [|split]]]].
  - apply (proj1 (proj2 (proj2 (getter_queries_device_every_time
                                  RenderingContext.depthFunc device0)))).
    simpl. intros H.
    repeat (destruct H as [H|H]; [discriminate H|]). exact H.
  - apply (proj1 (proj2 (proj2 (proj2 (getter_queries_device_every_time
                                  RenderingContext.activeTextureUnit
                                  device0))))).
    reflexivity.
  - apply (proj1 (proj2 (proj2 (proj2 (proj2
             (getter_queries_device_every_time
                RenderingContext.viewport device0)))))).
    + simpl. tauto.
    + intros l. discriminate.
  - apply (proj1 (proj2 (proj2 (proj2 (proj2 (proj2 (proj2
             (getter_queries_device_every_time
                RenderingContext.viewport device0)))))))
             "TypeError"%string).
    reflexivity.
  - apply (proj1 (proj2 (proj2 (proj2 (proj2 (proj2
             (getter_queries_device_every_time
                RenderingContext.viewport device_viewport))))))
             (VTuple [0; 0; 300; 150])).
    reflexivity.
  - apply (proj1 (proj2 (proj2 (proj2 (proj2
             (getter_queries_device_every_time
                RenderingContext.viewport device_viewport)))))).
    + simpl. tauto.
    + reflexivity.
Defined.

Module StencilFacts.
Import RenderingContext.

(** What each composite stencil setter sends to the device, on any
    device: two sibling reads, then one [stencilFuncSeparate]. *)
Lemma set_stencilFuncFront_issues (value : Z) (d : Device) :
  issued (set_stencilFuncFront value) d
  = [gl.getParameter WebGLConstant.STENCIL_REF;
     gl.getParameter WebGLConstant.STENCIL_WRITEMASK;
     gl.stencilFuncSeparate WebGLConstant.FRONT (VNum value)
       (param d WebGLConstant.STENCIL_REF)
       (param d WebGLConstant.STENCIL_WRITEMASK)].
Proof. run_setter. Qed.

Lemma set_stencilRefFront_issues (value : Z) (d : Device) :
  issued (set_stencilRefFront value) d
  = [gl.getParameter WebGLConstant.STENCIL_FUNC;
     gl.getParameter WebGLConstant.STENCIL_WRITEMASK;
     gl.stencilFuncSeparate WebGLConstant.FRONT
       (param d WebGLConstant.STENCIL_FUNC) (VNum value)
       (param d WebGLConstant.STENCIL_WRITEMASK)].
Proof. run_setter. Qed.

Lemma set_stencilValueMaskFront_issues (value : Z) (d : Device) :
  issued (set_stencilValueMaskFront value) d
  = [gl.getParameter WebGLConstant.STENCIL_FUNC;
     gl.getParameter WebGLConstant.STENCIL_BACK_REF;
     gl.stencilFuncSeparate WebGLConstant.FRONT
       (param d WebGLConstant.STENCIL_FUNC)
       (param d WebGLConstant.STENCIL_BACK_REF) (VNum value)].
Proof. run_setter. Qed.

Lemma set_stencilFuncBack_issues (value : Z) (d : Device) :
  issued (set_stencilFuncBack value) d
  = [gl.getParameter WebGLConstant.STENCIL_BACK_REF;
     gl.getParameter WebGLConstant.STENCIL_BACK_VALUE_MASK;
     gl.stencilFuncSeparate WebGLConstant.BACK (VNum value)
       (param d WebGLConstant.STENCIL_BACK_REF)
       (param d WebGLConstant.STENCIL_BACK_VALUE_MASK)].
Proof. run_setter. Qed.

Lemma set_stencilRefBack_issues (value : Z) (d : Device) :
  issued (set_stencilRefBack value) d
  = [gl.getParameter WebGLConstant.STENCIL_BACK_FUNC;
     gl.getParameter WebGLConstant.STENCIL_BACK_VALUE_MASK;
     gl.stencilFuncSeparate WebGLConstant.BACK
       (param d WebGLConstant.STENCIL_BACK_FUNC) (VNum value)
       (param d WebGLConstant.STENCIL_BACK_VALUE_MASK)].
Proof. run_setter. Qed.

Lemma set_stencilValueMaskBack_issues (value : Z) (d : Device) :
  issued (set_stencilValueMaskBack value) d
  = [gl.getParameter WebGLConstant.STENCIL_BACK_FUNC;
     gl.getParameter WebGLConstant.STENCIL_BACK_REF;
     gl.stencilFuncSeparate WebGLConstant.BACK
       (param d WebGLConstant.STENCIL_BACK_FUNC)
       (param d WebGLConstant.STENCIL_BACK_REF) (VNum value)].
Proof. run_setter. Qed.

(** The back-face setters leave the two sibling registers as they were. *)
Lemma set_stencilFuncBack_preserves (value : Z) (d : Device) :
  let d' := snd (set_stencilFuncBack value d) in
  param d' WebGLConstant.STENCIL_BACK_FUNC = VNum value
  /\ param d' WebGLConstant.STENCIL_BACK_REF
     = param d WebGLConstant.STENCIL_BACK_REF
  /\ param d' WebGLConstant.STENCIL_BACK_VALUE_MASK
     = param d WebGLConstant.STENCIL_BACK_VALUE_MASK.
Proof.
  unfold set_stencilFuncBack, param. gl_unfold. unfold write_face. simpl.
  rewrite !lookup_insert_ne by discriminate.
  rewrite !lookup_insert_eq.
  rewrite !lookup_insert_ne by discriminate.
  rewrite !lookup_insert_eq. auto.
Qed.

Lemma set_stencilValueMaskBack_preserves (value : Z) (d : Device) :
  let d' := snd (set_stencilValueMaskBack value d) in
  param d' WebGLConstant.STENCIL_BACK_VALUE_MASK = VNum value
  /\ param d' WebGLConstant.STENCIL_BACK_REF
     = param d WebGLConstant.STENCIL_BACK_REF
  /\ param d' WebGLConstant.STENCIL_BACK_FUNC
     = param d WebGLConstant.STENCIL_BACK_FUNC.
Proof.
  unfold set_stencilValueMaskBack, param. gl_unfold. unfold write_face. simpl.
  rewrite !lookup_insert_eq.
  rewrite !lookup_insert_ne by discriminate.
  rewrite !lookup_insert_eq.
  rewrite !lookup_insert_ne by discriminate.
  rewrite !lookup_insert_eq. auto.
Qed.

(** The example of the specification holds on any device: after
    [stencilRefFront = 5] and [stencilMaskFront = 0xFF], setting
    [stencilFuncFront = f] sends (f, 5, 0xFF) for the front face.  The
    third argument is the front write mask last set by
    [stencilMaskFront]. *)
Lemma stencilFuncFront_after_ref_and_mask (f : Z) (d : Device) :
  commands
    (issued (set_stencilFuncFront f)
       (snd ((set_stencilRefFront 5;; set_stencilMaskFront 0xFF) d)))
  = [gl.stencilFuncSeparate WebGLConstant.FRONT (VNum f) (VNum 5) (VNum 0xFF)].
Proof.
  rewrite set_stencilFuncFront_issues.
  set (d' := snd ((set_stencilRefFront 5;; set_stencilMaskFront 0xFF) d)).
  assert (Href : param d' WebGLConstant.STENCIL_REF = VNum 5).
  { unfold d', param. gl_unfold. unfold write_face. simpl.
    rewrite !lookup_insert_ne by discriminate.
    rewrite lookup_insert_eq. reflexivity. }
  assert (Hmask : param d' WebGLConstant.STENCIL_WRITEMASK = VNum 0xFF).
  { unfold d', param. gl_unfold. unfold write_face. simpl.
    rewrite lookup_insert_eq. reflexivity. }
  rewrite Href, Hmask. reflexivity.
Qed.

End StencilFacts.

(** C3.  The composite stencil setters are meant to read the other two
    values of the same face and send all three.  The back-face setters do;
    two front-face setters do not.  On a device whose front reference is 1,
    back reference 2, front value mask 0x0F and front write mask 0xF0:
    [stencilValueMaskFront = 0xFF] sends the back-face reference 2 as the
    front reference, which the device then stores; and
    [stencilFuncFront = LESS] sends the write mask 0xF0 as the value mask,
    which the device then stores in place of 0x0F. *)
Theorem stencil_front_setters_send_wrong_sibling :
  RenderingContext.param RenderingContext.device_stencil
    WebGLConstant.STENCIL_REF = VNum 1
  /\ RenderingContext.param RenderingContext.device_stencil
       WebGLConstant.STENCIL_VALUE_MASK = VNum 0x0F
  /\ RenderingContext.commands
       (issued (RenderingContext.set_stencilValueMaskFront 0xFF)
          RenderingContext.device_stencil)
     = [gl.stencilFuncSeparate WebGLConstant.FRONT
          (VNum WebGLConstant.ALWAYS) (VNum 2) (VNum 0xFF)]
  /\ fst ((RenderingContext.set_stencilValueMaskFront 0xFF;;
           RenderingContext.get RenderingContext.stencilRefFront)
            RenderingContext.device_stencil)
     = Normal (VNum 2)
  /\ RenderingContext.commands
       (issued (RenderingContext.set_stencilFuncFront WebGLConstant.LESS)
          RenderingContext.device_stencil)
     = [gl.stencilFuncSeparate WebGLConstant.FRONT
          (VNum WebGLConstant.LESS) (VNum 1) (VNum 0xF0)]
  /\ fst ((RenderingContext.set_stencilFuncFront WebGLConstant.LESS;;
           RenderingContext.get RenderingContext.stencilValueMaskFront)
            RenderingContext.device_stencil)
     = Normal (VNum 0xF0).
Proof.
  repeat split; vm_compute; reflexivity.
Qed.

(** * Further properties of Attribute *)

Module MirrorFacts.
Import Attribute AttributeMirror.

Lemma device_enabled_snoc (loc : Z) (log : list GLCall) (c : GLCall) :
  device_enabled loc (log ++ [c]) = toggle_step loc (device_enabled loc log) c.
Proof. unfold device_enabled. rewrite fold_left_app. reflexivity. Qed.

Lemma toggle_step_pointer (loc i : Z) (flag : bool) (c : GLCall) :
  is_pointer_call i c = true -> toggle_step loc flag c = flag.
Proof. destruct c; simpl; intros H; try discriminate H; reflexivity. Qed.

Lemma device_enabled_after_enable (this : t) (d : Device) :
  mirrors this d ->
  device_enabled (location this) (calls (after_enable this d)) = true.
Proof.
  unfold mirrors, after_enable. intros H.
  destruct (enabled this) eqn:E.
  - symmetry. exact H.
  - rewrite SetterFacts.calls_after, device_enabled_snoc. simpl.
    rewrite Z.eqb_refl. reflexivity.
Qed.

End MirrorFacts.

(** X1.  Assigning [enabled] and reading it back: after [enabled = b] the
    getter returns [b] without touching the device, assigning [b] a second
    time changes nothing and calls nothing, and the assignment itself made at
    most one device call and left the location and the cached value alone. *)
Theorem enabled_assignment_reads_back :
  forall (this : Attribute.t) (b : bool) (d : Device),
  exists this1 d1,
    Attribute.set_enabled b this d = (Normal this1, d1)
    /\ Attribute.get_enabled this1 d1 = (Normal (b, this1), d1)
    /\ Attribute.set_enabled b this1 d1 = (Normal this1, d1)
    /\ (length (issued (Attribute.set_enabled b this) d) <= 1)%nat
    /\ Attribute.location this1 = Attribute.location this
    /\ Attribute.valueCache this1 = Attribute.valueCache this.
Proof.
  intros this b d.
  rewrite AttributeFacts.set_enabled_eq.
  destruct (Bool.eqb (Attribute.enabled this) b) eqn:E.
  - apply Bool.eqb_prop in E. subst b.
    do 2 eexists. split; [reflexivity|].
    split; [reflexivity|]. split.
    { rewrite AttributeFacts.set_enabled_eq.
      change (Attribute.enabled
                (Attribute.with_enabledCache (Some (Attribute.enabled this))
                   this))
        with (Attribute.enabled this).
      rewrite Bool.eqb_reflx. reflexivity. }
    split; [|split; reflexivity].
    rewrite (issued_unchanged _ d
               (Normal (Attribute.with_enabledCache
                          (Some (Attribute.enabled this)) this))).
    + simpl. lia.
    + rewrite AttributeFacts.set_enabled_eq, Bool.eqb_reflx. reflexivity.
  - do 2 eexists. split; [reflexivity|].
    split; [reflexivity|]. split.
    { rewrite AttributeFacts.set_enabled_eq.
      change (Attribute.enabled
                (Attribute.with_enabledCache (Some b) this)) with b.
      rewrite Bool.eqb_reflx. reflexivity. }
    split; [|split; reflexivity].
    rewrite (issued_spec _ d
               [if b then gl.enableVertexAttribArray (Attribute.location this)
                else gl.disableVertexAttribArray (Attribute.location this)]).
    + simpl. lia.
    + rewrite AttributeFacts.set_enabled_eq, E. destruct b; reflexivity.
Qed.

(** X2.  The cached flag keeps mirroring the device: if the cached flag of
    an Attribute equals the enable flag the device holds for its location
    (the last toggle in the log, disabled when there is none), then after
    [enabled = b] both are [b]. *)
Theorem enabled_cache_mirrors_device :
  forall (this : Attribute.t) (b : bool) (d : Device),
    AttributeMirror.mirrors this d ->
    exists this1 d1,
      Attribute.set_enabled b this d = (Normal this1, d1)
      /\ AttributeMirror.mirrors this1 d1
      /\ Attribute.enabled this1 = b
      /\ AttributeMirror.device_enabled (Attribute.location this) (calls d1)
         = b.
Proof.
  intros this b d Hm. unfold AttributeMirror.mirrors in *.
  rewrite AttributeFacts.set_enabled_eq.
  destruct (Bool.eqb (Attribute.enabled this) b) eqn:E.
  - apply Bool.eqb_prop in E. subst b.
    do 2 eexists. split; [reflexivity|].
    split; [exact Hm|]. split; [reflexivity|]. symmetry. exact Hm.
  - do 2 eexists. split; [reflexivity|].
    assert (Hd : AttributeMirror.device_enabled (Attribute.location this)
                   (calls (snd (command
                      (if b
                       then gl.enableVertexAttribArray
                              (Attribute.location this)
                       else gl.disableVertexAttribArray
                              (Attribute.location this))
                      d))) = b).
    { change (calls (snd (command ?c d))) with (calls d ++ [c]).
      rewrite MirrorFacts.device_enabled_snoc.
      destruct b; simpl; rewrite Z.eqb_refl; reflexivity. }
    split; [|split; [reflexivity|exact Hd]].
    change (Attribute.location (Attribute.with_enabledCache (Some b) this))
      with (Attribute.location this).
    rewrite Hd. reflexivity.
Qed.

Lemma enabled_cache_mirrors_device_witness :
  AttributeMirror.mirrors attribute_fresh device0
  /\ exists this1 d1,
       Attribute.set_enabled true attribute_fresh device0 = (Normal this1, d1)
       /\ AttributeMirror.mirrors this1 d1
       /\ Attribute.enabled this1 = true
       /\ AttributeMirror.device_enabled 4 (calls d1) = true.
Proof.
  split; [reflexivity|].
  apply (enabled_cache_mirrors_device attribute_fresh true device0).
  reflexivity.
Defined.

(** X3.  Assigning [value] keeps the mirror too, and always leaves the
    attribute array enabled: if the cached flag mirrors the device and
    [setterInternal] honours its contract, then after the assignment the
    cached flag and the device flag for the location are both [true]. *)
Theorem value_assignment_leaves_array_enabled :
  forall (setterInternal : Attribute.t -> Attribute.AttributeValue -> GL unit),
    Attribute.describes_pointer setterInternal ->
    forall (this : Attribute.t)
           (value : Attribute.AttributeValue + Attribute.Buffer) (d : Device),
      AttributeMirror.mirrors this d ->
      exists this1 d1,
        Attribute.set_value setterInternal value this d = (Normal this1, d1)
        /\ AttributeMirror.mirrors this1 d1
        /\ Attribute.enabled this1 = true
        /\ AttributeMirror.device_enabled (Attribute.location this) (calls d1)
           = true.
Proof.
  intros si Hsi this value d Hm.
  destruct (Hsi (Attribute.with_enabledCache (Some true) this)
                (Attribute.realValue value)) as (c & Hc & Hrun).
  do 2 eexists. split.
  { apply (SetterFacts.set_value_eq si value this d c Hrun). }
  assert (Hd : AttributeMirror.device_enabled (Attribute.location this)
                 (calls (after c
                    (after (gl.bindBuffer WebGLConstant.ARRAY_BUFFER
                              (Attribute.internal
                                 (Attribute.buffer
                                    (Attribute.realValue value))))
                       (Attribute.after_enable this d)))) = true).
  { rewrite !SetterFacts.calls_after, !MirrorFacts.device_enabled_snoc.
    rewrite (MirrorFacts.toggle_step_pointer _ _ _ _ Hc). simpl.
    apply MirrorFacts.device_enabled_after_enable, Hm. }
  split; [|split; [reflexivity|exact Hd]].
  unfold AttributeMirror.mirrors.
  change (Attribute.location (Attribute.with_valueCache _ _))
    with (Attribute.location this).
  rewrite Hd. reflexivity.
Qed.

Lemma value_assignment_leaves_array_enabled_witness :
  Attribute.describes_pointer Attribute.float_setterInternal
  /\ AttributeMirror.mirrors attribute_fresh device0
  /\ exists this1 d1,
       Attribute.set_value Attribute.float_setterInternal (inr buffer9)
         attribute_fresh device0 = (Normal this1, d1)
       /\ AttributeMirror.mirrors this1 d1
       /\ Attribute.enabled this1 = true
       /\ AttributeMirror.device_enabled 4 (calls d1) = true.
Proof.
  assert (H : Attribute.describes_pointer Attribute.float_setterInternal).
  { intros this v. eexists. split; [|reflexivity]. simpl. apply Z.eqb_refl. }
  split; [exact H|]. split; [reflexivity|].
  apply (value_assignment_leaves_array_enabled
           Attribute.float_setterInternal H attribute_fresh (inr buffer9)
           device0).
  reflexivity.
Defined.

(** * Further properties of Texture2D *)

Module FormatFacts.
Import Texture2D.

Lemma get_type_shape (this : t) :
  exists r, forall d, get_type this d = (r, d).
Proof.
  unfold get_type. split_ifs; eexists; intros d; reflexivity.
Qed.




End FormatFacts.

(** X4.  Reading [format] never throws and never touches the device, and
    the format it yields is a fixed point: a texture whose internal format
    is set to the format just read reads the same format again. *)
Theorem format_getter_is_idempotent :
  forall (this : Texture2D.t) (d : Device),
  exists fmt,
    Texture2D.get_format this d = (Normal fmt, d)
    /\ Texture2D.get_format (Texture2D.with_internalFormat fmt this) d
       = (Normal fmt, d).
Proof.
  intros this d.
  unfold Texture2D.get_format, Texture2D.with_internalFormat.
  cbn [Texture2D.internalFormat Texture2D.format_].
  destruct (Texture2D.truthy (Texture2D.format_ this));
    [eexists; split; reflexivity|].
  generalize (Texture2D.internalFormat this) as f. intros f.
  unfold Texture2D.case_of, existsb.
  repeat match goal with
         | |- context [f =? ?k] =>
             destruct (f =? k) eqn:?; cbn [orb];
             [eexists; split; reflexivity|]
         end.
  exists f. split; [reflexivity|].
  repeat match goal with
         | H : (f =? _) = false |- _ => rewrite H; clear H
         end.
  reflexivity.
Qed.



(** * Further properties of RenderingContext *)

Module RegisterFacts.
Import RenderingContext ContextSetters.

Lemma reads_eq (s : Slot) (d : Device) :
  reads s d = present s (device_answer (query s) d).
Proof. unfold reads. rewrite ContextFacts.get_eq. reflexivity. Qed.

(** [update] leaves the texture unit it was given selected, however it
    ends. *)
Lemma update_active_texture (textureUnit : Z) (this : Texture2D.t)
    (d : Device) :
  params (snd (Texture2D.update textureUnit this d))
    !! WebGLConstant.ACTIVE_TEXTURE
  = Some (VNum (Texture2D.TEXTURE0 + textureUnit)).
Proof.
  rewrite UpdateFacts.update_eq. cbv zeta.
  destruct (FormatFacts.get_type_shape this) as [r Hr].
  destruct (Texture2DFacts.get_format_total this d) as [fmt Hfmt].
  rewrite (GetterFacts.get_format_indep this d _ _ Hfmt).
  rewrite !Hr.
  destruct r; [destruct (Texture2D.width this), (Texture2D.height this)|];
    simpl; apply lookup_insert_eq.
Qed.

End RegisterFacts.

(** X6.  The active texture unit reads back.  For a unit the device has
    (every device has units 0 to 31), after [activeTextureUnit = v] the
    getter returns [v]; and after [update(v)] of any Texture2D, whether it
    completed or threw, the context's [activeTextureUnit] reads [v]: the
    texture's own TEXTURE0 constant and the context's agree. *)
Theorem active_texture_unit_reads_back :
  forall (v : Z) (d : Device),
    0 <= v < 32 ->
    ContextSetters.reads RenderingContext.activeTextureUnit
      (snd (ContextSetters.set_activeTextureUnit v d)) = Normal (VNum v)
    /\ forall (this : Texture2D.t),
         ContextSetters.reads RenderingContext.activeTextureUnit
           (snd (Texture2D.update v this d)) = Normal (VNum v).
Proof.
  intros v d _. split.
  - rewrite RegisterFacts.reads_eq. unfold ContextSetters.set_activeTextureUnit.
    gl_unfold. rewrite lookup_insert_eq.
    cbn [default from_option id RenderingContext.present].
    unfold RenderingContext.minus, RenderingContext.to_number.
    f_equal. f_equal. lia.
  - intros this. rewrite RegisterFacts.reads_eq.
    unfold device_answer, RenderingContext.query.
    rewrite RegisterFacts.update_active_texture.
    cbn [default from_option id RenderingContext.present].
    unfold RenderingContext.minus, RenderingContext.to_number.
    f_equal. f_equal. unfold Texture2D.TEXTURE0, WebGLConstant.TEXTURE0. lia.
Qed.

Lemma active_texture_unit_reads_back_witness :
  ContextSetters.reads RenderingContext.activeTextureUnit
    (snd (ContextSetters.set_activeTextureUnit 3 device0)) = Normal (VNum 3)
  /\ ContextSetters.reads RenderingContext.activeTextureUnit
       (snd (Texture2D.update 3 texture_red device0)) = Normal (VNum 3).
Proof.
  destruct (active_texture_unit_reads_back 3 device0) as [Hset Hupdate].
  - lia.
  - split; [exact Hset|exact (Hupdate texture_red)].
Defined.

(** X7.  The back-face composite stencil setters keep their siblings, on
    every device: each of [stencilFuncBack], [stencilRefBack] and
    [stencilValueMaskBack] leaves the property it sets reading the new value
    and leaves the other two back-face properties, the back write mask and
    the four front-face stencil properties reading what they read before. *)
Theorem back_stencil_setters_keep_siblings :
  forall (d : Device) (v : Z),
    StencilFrame.sets_only RenderingContext.set_stencilFuncBack
      RenderingContext.stencilFuncBack
      [RenderingContext.stencilRefBack; RenderingContext.stencilValueMaskBack;
       RenderingContext.stencilMaskBack; RenderingContext.stencilFuncFront;
       RenderingContext.stencilRefFront;
       RenderingContext.stencilValueMaskFront;
       RenderingContext.stencilMaskFront] d v
    /\ StencilFrame.sets_only RenderingContext.set_stencilRefBack
         RenderingContext.stencilRefBack
         [RenderingContext.stencilFuncBack;
          RenderingContext.stencilValueMaskBack;
          RenderingContext.stencilMaskBack; RenderingContext.stencilFuncFront;
          RenderingContext.stencilRefFront;
          RenderingContext.stencilValueMaskFront;
          RenderingContext.stencilMaskFront] d v
    /\ StencilFrame.sets_only RenderingContext.set_stencilValueMaskBack
         RenderingContext.stencilValueMaskBack
         [RenderingContext.stencilFuncBack; RenderingContext.stencilRefBack;
          RenderingContext.stencilMaskBack; RenderingContext.stencilFuncFront;
          RenderingContext.stencilRefFront;
          RenderingContext.stencilValueMaskFront;
          RenderingContext.stencilMaskFront] d v.
Proof.
  intros d v. unfold StencilFrame.sets_only.
  repeat first [split | apply List.Forall_cons | apply List.Forall_nil];
    rewrite !RegisterFacts.reads_eq;
    unfold RenderingContext.set_stencilFuncBack,
      RenderingContext.set_stencilRefBack,
      RenderingContext.set_stencilValueMaskBack;
    registers.
Qed.

(** X8.  What the front-face composite stencil setters do, on every device.
    Each leaves the property it sets reading the new value, the front
    function or reference it re-sends reading what it read before, and the
    front write mask and all back-face properties untouched.  But
    [stencilFuncFront] and [stencilRefFront] leave the front value mask
    reading what the front write mask read, and [stencilValueMaskFront]
    leaves the front reference reading what the back reference read. *)
Theorem front_stencil_setters_effect :
  forall (d : Device) (v : Z),
    (StencilFrame.sets_only RenderingContext.set_stencilFuncFront
       RenderingContext.stencilFuncFront
       [RenderingContext.stencilRefFront; RenderingContext.stencilMaskFront;
        RenderingContext.stencilFuncBack; RenderingContext.stencilRefBack;
        RenderingContext.stencilValueMaskBack;
        RenderingContext.stencilMaskBack] d v
     /\ ContextSetters.reads RenderingContext.stencilValueMaskFront
          (snd (RenderingContext.set_stencilFuncFront v d))
        = ContextSetters.reads RenderingContext.stencilMaskFront d)
    /\ (StencilFrame.sets_only RenderingContext.set_stencilRefFront
          RenderingContext.stencilRefFront
          [RenderingContext.stencilFuncFront; RenderingContext.stencilMaskFront;
           RenderingContext.stencilFuncBack; RenderingContext.stencilRefBack;
           RenderingContext.stencilValueMaskBack;
           RenderingContext.stencilMaskBack] d v
        /\ ContextSetters.reads RenderingContext.stencilValueMaskFront
             (snd (RenderingContext.set_stencilRefFront v d))
           = ContextSetters.reads RenderingContext.stencilMaskFront d)
    /\ (StencilFrame.sets_only RenderingContext.set_stencilValueMaskFront
          RenderingContext.stencilValueMaskFront
          [RenderingContext.stencilFuncFront; RenderingContext.stencilMaskFront;
           RenderingContext.stencilFuncBack; RenderingContext.stencilRefBack;
           RenderingContext.stencilValueMaskBack;
           RenderingContext.stencilMaskBack] d v
        /\ ContextSetters.reads RenderingContext.stencilRefFront
             (snd (RenderingContext.set_stencilValueMaskFront v d))
           = ContextSetters.reads RenderingContext.stencilRefBack d).
Proof.
  intros d v. unfold StencilFrame.sets_only.
  repeat first [split | apply List.Forall_cons | apply List.Forall_nil];
    rewrite !RegisterFacts.reads_eq;
    unfold RenderingContext.set_stencilFuncFront,
      RenderingContext.set_stencilRefFront,
      RenderingContext.set_stencilValueMaskFront;
    registers.
Qed.

(** * getDataTypeForTypedArray *)

(** X9.  The implementation honours every declared overload: whenever one
    of the specific signatures accepts the arguments, the implementation
    returns the member that signature promises.  The [half] flag decides
    between HALF_FLOAT and FLOAT for a Float32Array and is ignored for every
    other class of array. *)
Theorem typed_array_overloads_honoured :
  forall (array : TypedArrays.TypedArray) (half : option bool),
    (forall ty, TypedArrays.declared array half = Some ty ->
                TypedArrays.getDataTypeForTypedArray array half = ty)
    /\ (array <> TypedArrays.Float32Array ->
        forall half', TypedArrays.getDataTypeForTypedArray array half'
                      = TypedArrays.getDataTypeForTypedArray array half)
    /\ TypedArrays.getDataTypeForTypedArray TypedArrays.Float32Array half
       = if default false half then TypedArrays.BufferDataType.HALF_FLOAT
         else TypedArrays.BufferDataType.FLOAT.
Proof.
  intros array half. split; [|split].
  - intros ty. destruct array, half as [[|]|]; simpl; intros H;
      try discriminate H; injection H as <-; reflexivity.
  - intros Hne half'. destruct array; try reflexivity. contradiction.
  - reflexivity.
Qed.

Lemma typed_array_overloads_honoured_witness :
  TypedArrays.getDataTypeForTypedArray TypedArrays.Float32Array (Some true)
  = TypedArrays.BufferDataType.HALF_FLOAT
  /\ TypedArrays.getDataTypeForTypedArray TypedArrays.Uint8ClampedArray
       (Some true)
     = TypedArrays.getDataTypeForTypedArray TypedArrays.Uint8ClampedArray None.
Proof.
  split.
  - apply (proj1 (typed_array_overloads_honoured TypedArrays.Float32Array
                    (Some true))).
    reflexivity.
  - apply (proj1 (proj2 (typed_array_overloads_honoured
                           TypedArrays.Uint8ClampedArray None))).
    discriminate.
Defined.

(** * Matrix2 *)

Section Matrix2Facts.

Context {num : Type}.
Variables (one : num) (add sub mul div : num -> num -> num).
Variables (neg sin cos : num -> num).

Lemma write_other (r r' i : nat) (v : num) (h : Matrix2.Heap) :
  r' <> r -> forall j, Matrix2.write r i v h r' j = h r' j.
Proof.
  intros Hne j. unfold Matrix2.write.
  rewrite (proj2 (Nat.eqb_neq r' r) Hne). reflexivity.
Qed.

(** X10.  Transposing into a different matrix is a transposition and can
    be undone: [transposeFast(m, out)] with [out] another object than [m]
    stores (m0, m2, m1, m3) in [out] and leaves [m] as it was, and
    transposing [out] back into [m] leaves [m] as it was at the start.  With
    a commutative multiplication, [determinantFast] of the transpose is
    [determinantFast] of the matrix. *)
Theorem transposeFast_out_of_place :
  forall (m out : nat) (h : @Matrix2.Heap num),
    m <> out ->
    Matrix2.entries (Matrix2.transposeFast m out h) out
    = (h m 0%nat, h m 2%nat, h m 1%nat, h m 3%nat)
    /\ Matrix2.entries (Matrix2.transposeFast m out h) m = Matrix2.entries h m
    /\ Matrix2.entries
         (Matrix2.transposeFast out m (Matrix2.transposeFast m out h)) m
       = Matrix2.entries h m
    /\ ((forall x y, mul x y = mul y x) ->
        Matrix2.determinantFast sub mul out (Matrix2.transposeFast m out h)
        = Matrix2.determinantFast sub mul m h).
Proof.
  intros m out h Hne.
  assert (E1 : (m =? out)%nat = false) by (apply Nat.eqb_neq; exact Hne).
  assert (E2 : (out =? m)%nat = false)
    by (apply Nat.eqb_neq; intros E; apply Hne; symmetry; exact E).
  unfold Matrix2.transposeFast, Matrix2.determinantFast.
  split; [|split; [|split]];
    try (heap_simpl; rewrite ?E1, ?E2; heap_simpl; reflexivity).
  intros Hcomm. heap_simpl. rewrite ?E1, ?E2. heap_simpl.
  rewrite (Hcomm (h m 1%nat) (h m 2%nat)). reflexivity.
Qed.

(** X11.  The in-place [transpose()] is not a transposition: it copies
    entry 2 over entry 1 before reading entry 1, so the matrix ends as
    (m0, m2, m2, m3) and the old entry 1 is lost; transposing in place a
    second time changes nothing more. *)
Theorem transpose_in_place_loses_entry :
  forall (this : nat) (h : @Matrix2.Heap num),
    Matrix2.entries (Matrix2.transpose this h) this
    = (h this 0%nat, h this 2%nat, h this 2%nat, h this 3%nat)
    /\ Matrix2.entries (Matrix2.transpose this (Matrix2.transpose this h)) this
       = Matrix2.entries (Matrix2.transpose this h) this.
Proof.
  intros this h. unfold Matrix2.transpose, Matrix2.transposeFast.
  split; heap_simpl; reflexivity.
Qed.

(** X12.  [adjointFast] and [cofactorFast] read entry 0 of the operand
    after writing entry 0 of the output.  Into a different matrix they store
    (m3, -m1, -m2, m0) and (m3, -m1, m2, -m0); the in-place [adjoint()] and
    [cofactor()] store (m3, -m1, -m2, m3) and (m3, -m1, m2, -m3): the old
    entry 0 never reaches entry 3. *)
Theorem adjoint_cofactor_aliasing :
  forall (m out : nat) (h : @Matrix2.Heap num),
    (m <> out ->
       Matrix2.entries (Matrix2.adjointFast neg m out h) out
       = (h m 3%nat, neg (h m 1%nat), neg (h m 2%nat), h m 0%nat)
       /\ Matrix2.entries (Matrix2.cofactorFast neg m out h) out
          = (h m 3%nat, neg (h m 1%nat), h m 2%nat, neg (h m 0%nat)))
    /\ Matrix2.entries (Matrix2.adjoint neg m h) m
       = (h m 3%nat, neg (h m 1%nat), neg (h m 2%nat), h m 3%nat)
    /\ Matrix2.entries (Matrix2.cofactor neg m h) m
       = (h m 3%nat, neg (h m 1%nat), h m 2%nat, neg (h m 3%nat)).
Proof.
  intros m out h. split; [|split].
  - intros Hne.
    assert (E1 : (m =? out)%nat = false) by (apply Nat.eqb_neq; exact Hne).
    unfold Matrix2.adjointFast, Matrix2.cofactorFast.
    split; heap_simpl; rewrite ?E1; heap_simpl; reflexivity.
  - unfold Matrix2.adjoint, Matrix2.adjointFast. heap_simpl. reflexivity.
  - unfold Matrix2.cofactor, Matrix2.cofactorFast. heap_simpl. reflexivity.
Qed.

(** X13.  [multiplyFast], [invertFast] and the static [rotate] read all
    their operands before they write, so they compute the same entries
    whether or not [out] is one of the operands: the in-place [multiply(m)]
    and [invert()] leave in the matrix what the static method would have
    stored in any other [out].  They write to [out] only. *)
Theorem multiply_invert_rotate_alias_safe :
  forall (a b out : nat) (r : num) (h : @Matrix2.Heap num),
    Matrix2.entries (Matrix2.multiplyFast add mul a b out h) out
    = (add (mul (h a 0%nat) (h b 0%nat)) (mul (h a 2%nat) (h b 1%nat)),
       add (mul (h a 1%nat) (h b 0%nat)) (mul (h a 3%nat) (h b 1%nat)),
       add (mul (h a 0%nat) (h b 2%nat)) (mul (h a 2%nat) (h b 3%nat)),
       add (mul (h a 1%nat) (h b 2%nat)) (mul (h a 3%nat) (h b 3%nat)))
    /\ Matrix2.entries (Matrix2.invertFast one sub mul div neg a out h) out
       = (let det := div one (sub (mul (h a 0%nat) (h a 3%nat))
                                  (mul (h a 2%nat) (h a 1%nat))) in
          (mul (h a 3%nat) det, mul (neg (h a 1%nat)) det,
           mul (neg (h a 2%nat)) det, mul (h a 0%nat) det))
    /\ Matrix2.entries (Matrix2.rotate add mul neg sin cos a r out h) out
       = (add (mul (h a 0%nat) (cos r)) (mul (h a 2%nat) (sin r)),
          add (mul (h a 1%nat) (cos r)) (mul (h a 3%nat) (sin r)),
          add (mul (h a 0%nat) (neg (sin r))) (mul (h a 2%nat) (cos r)),
          add (mul (h a 1%nat) (neg (sin r))) (mul (h a 3%nat) (cos r)))
    /\ Matrix2.entries (Matrix2.multiply add mul a b h) a
       = Matrix2.entries (Matrix2.multiplyFast add mul a b out h) out
    /\ Matrix2.entries (Matrix2.invert one sub mul div neg a h) a
       = Matrix2.entries (Matrix2.invertFast one sub mul div neg a out h) out
    /\ (forall other j,
          other <> out ->
          Matrix2.multiplyFast add mul a b out h other j = h other j
          /\ Matrix2.invertFast one sub mul div neg a out h other j
             = h other j
          /\ Matrix2.rotate add mul neg sin cos a r out h other j
             = h other j).
Proof.
  intros a b out r h.
  unfold Matrix2.multiply, Matrix2.invert, Matrix2.multiplyFast,
    Matrix2.invertFast, Matrix2.rotate.
  split; [|split; [|split; [|split; [|split]]]];
    try (heap_simpl; reflexivity).
  intros other j Hne. cbv zeta.
  repeat split; rewrite !write_other by exact Hne; reflexivity.
Qed.

(** X14.  The entry-wise methods ([addFast], [subtractFast],
    [multiplyScalarFast], [scale]) are safe under every aliasing of [out]
    with the operands: entry [i] of the result is computed from the entries
    the operands had at the start, so the in-place [add(m)], [subtract(m)]
    and [multiplyScalar(s)] leave in the matrix what the static method would
    have stored in any other [out]. *)
Theorem entrywise_methods_alias_safe :
  forall (a b out v : nat) (s : num) (h : @Matrix2.Heap num),
    Matrix2.entries (Matrix2.addFast add a b out h) out
    = (add (h a 0%nat) (h b 0%nat), add (h a 1%nat) (h b 1%nat),
       add (h a 2%nat) (h b 2%nat), add (h a 3%nat) (h b 3%nat))
    /\ Matrix2.entries (Matrix2.subtractFast sub a b out h) out
       = (sub (h a 0%nat) (h b 0%nat), sub (h a 1%nat) (h b 1%nat),
          sub (h a 2%nat) (h b 2%nat), sub (h a 3%nat) (h b 3%nat))
    /\ Matrix2.entries (Matrix2.multiplyScalarFast mul a s out h) out
       = (mul (h a 0%nat) s, mul (h a 1%nat) s,
          mul (h a 2%nat) s, mul (h a 3%nat) s)
    /\ Matrix2.entries (Matrix2.scale mul a v out h) out
       = (mul (h a 0%nat) (h v 0%nat), mul (h a 1%nat) (h v 0%nat),
          mul (h a 2%nat) (h v 1%nat), mul (h a 3%nat) (h v 1%nat))
    /\ Matrix2.entries (Matrix2.add_ add a b h) a
       = Matrix2.entries (Matrix2.addFast add a b out h) out
    /\ Matrix2.entries (Matrix2.subtract sub a b h) a
       = Matrix2.entries (Matrix2.subtractFast sub a b out h) out
    /\ Matrix2.entries (Matrix2.multiplyScalar mul a s h) a
       = Matrix2.entries (Matrix2.multiplyScalarFast mul a s out h) out.
Proof.
  intros a b out v s h.
  unfold Matrix2.add_, Matrix2.subtract, Matrix2.multiplyScalar,
    Matrix2.addFast, Matrix2.subtractFast, Matrix2.multiplyScalarFast,
    Matrix2.scale.
  repeat split; heap_simpl; reflexivity.
Qed.

End Matrix2Facts.

Lemma transposeFast_out_of_place_witness :
  Matrix2.entries (Matrix2.transposeFast 1 2 Matrix2.sample_heap) 2%nat
  = (10, 12, 11, 13)
  /\ Matrix2.entries
       (Matrix2.transposeFast 2 1
          (Matrix2.transposeFast 1 2 Matrix2.sample_heap)) 1%nat
     = (10, 11, 12, 13)
  /\ Matrix2.determinantFast Z.sub Z.mul 2
       (Matrix2.transposeFast 1 2 Matrix2.sample_heap)
     = Matrix2.determinantFast Z.sub Z.mul 1 Matrix2.sample_heap.
Proof.
  destruct (transposeFast_out_of_place Z.sub Z.mul 1 2 Matrix2.sample_heap)
    as (Hout & _ & Hback & Hdet).
  - discriminate.
  - split; [exact Hout|]. split; [exact Hback|].
    apply Hdet. intros x y. lia.
Defined.

Lemma adjoint_cofactor_aliasing_witness :
  Matrix2.entries (Matrix2.adjointFast Z.opp 1 2 Matrix2.sample_heap) 2%nat
  = (13, -11, -12, 10)
  /\ Matrix2.entries (Matrix2.adjoint Z.opp 1 Matrix2.sample_heap) 1%nat
     = (13, -11, -12, 13).
Proof.
  destruct (adjoint_cofactor_aliasing Z.opp 1 2 Matrix2.sample_heap)
    as (Hout & Hin & _).
  split; [exact (proj1 (Hout ltac:(discriminate)))|exact Hin].
Defined.

(** * RenderingContext: capability flags, blending, stencil operations *)

Module StateFacts.
Import ContextState.

Lemma state_reads_eq (s : RenderingContext.Slot) (st : State) :
  reads s st
  = RenderingContext.present s
      (device_answer (RenderingContext.query s)
         (mkDevice (registers st) ∅ [])).
Proof. reflexivity. Qed.

Lemma state_issued_spec {A} (m : CS A) (st : State) (l : list Call) :
  log (snd (m st)) = log st ++ l -> issued m st = l.
Proof. intros H. unfold issued. rewrite H. apply drop_app_length. Qed.

End StateFacts.

(** Evaluate a property read after a setter of [ContextState]. *)
Ltac state_registers :=
  rewrite ?StateFacts.state_reads_eq;
  unfold mbind, mret, ContextState.CS_bind, ContextState.CS_ret,
    ContextState.cs_bind, ContextState.cs_ret, ContextState.command,
    ContextState.get, ContextState.read_setter_only;
  simpl; unfold write_face; simpl;
  repeat (rewrite lookup_insert_eq || rewrite lookup_insert_ne by discriminate);
  try reflexivity.

(** X15.  Each of the ten capability setters ([enableBlend] ...
    [enableRasterizerDiscard]) makes exactly one device call, [enable] or
    [disable] of its capability; afterwards its own getter returns the
    value assigned and the getters of the other nine capabilities return
    what they returned before. *)
Theorem capability_setters_read_back :
  forall (st : ContextState.State) (b : bool),
    Forall (fun p : (bool -> ContextState.CS unit) * RenderingContext.Slot =>
              ContextState.sets_only (fst p) VBool [snd p]
                (ContextState.without (snd p) ContextState.capabilities) st b
              /\ length (ContextState.without (snd p)
                            ContextState.capabilities) = 9%nat
              /\ ContextState.issued (fst p b) st
                 = [if b
                    then ContextState.enable (ContextState.register_of (snd p))
                    else ContextState.disable
                           (ContextState.register_of (snd p))])
      ContextState.toggles.
Proof.
  intros st b. unfold ContextState.toggles, ContextState.sets_only.
  repeat first [split | apply List.Forall_cons | apply List.Forall_nil];
    try (apply StateFacts.state_issued_spec; destruct b; reflexivity);
    try reflexivity;
    cbn [fst snd];
    unfold ContextState.set_enableBlend, ContextState.set_enableCullFace,
      ContextState.set_enableDepthTest, ContextState.set_enableDither,
      ContextState.set_enablePolygonOffsetFill,
      ContextState.set_enableSampleAlphaToCoverage,
      ContextState.set_enableSampleCoverage,
      ContextState.set_enableScissorTest, ContextState.set_enableStencilTest,
      ContextState.set_enableRasterizerDiscard, ContextState.toggle;
    destruct b; state_registers.
Qed.

(** X16.  The composite blend setters keep their siblings, on every
    device.  [blendEquationRgb] and [blendEquationAlpha] each leave the
    other equation and the four blend functions as they were;
    [blendEquation] sets both equations; each of the four
    [blendFunc...] setters changes its own factor only; [blendFuncSrc] sets
    both source factors and [blendFuncDst] both destination factors, leaving
    the other pair and the equations as they were. *)
Theorem blend_setters_keep_siblings :
  forall (st : ContextState.State) (v : Z),
    let only setter own :=
      ContextState.sets_only setter VNum own
        (fold_right ContextState.without ContextState.blend_slots own) st v in
    only ContextState.set_blendEquationRgb [RenderingContext.blendEquationRgb]
    /\ only ContextState.set_blendEquationAlpha
         [RenderingContext.blendEquationAlpha]
    /\ only ContextState.set_blendEquation
         [RenderingContext.blendEquationRgb;
          RenderingContext.blendEquationAlpha]
    /\ only ContextState.set_blendFuncSrcRgb [RenderingContext.blendFuncSrcRgb]
    /\ only ContextState.set_blendFuncDstRgb [RenderingContext.blendFuncDstRgb]
    /\ only ContextState.set_blendFuncSrcAlpha
         [RenderingContext.blendFuncSrcAlpha]
    /\ only ContextState.set_blendFuncDstAlpha
         [RenderingContext.blendFuncDstAlpha]
    /\ only ContextState.set_blendFuncSrc
         [RenderingContext.blendFuncSrcRgb; RenderingContext.blendFuncSrcAlpha]
    /\ only ContextState.set_blendFuncDst
         [RenderingContext.blendFuncDstRgb; RenderingContext.blendFuncDstAlpha]
    /\ length (fold_right ContextState.without ContextState.blend_slots
                 [RenderingContext.blendFuncSrcRgb;
                  RenderingContext.blendFuncSrcAlpha]) = 4%nat.
Proof.
  intros st v only. unfold only, ContextState.sets_only.
  repeat first [split | apply List.Forall_cons | apply List.Forall_nil];
    unfold ContextState.set_blendEquationRgb,
      ContextState.set_blendEquationAlpha, ContextState.set_blendEquation,
      ContextState.set_blendFuncSrcRgb, ContextState.set_blendFuncDstRgb,
      ContextState.set_blendFuncSrcAlpha, ContextState.set_blendFuncDstAlpha,
      ContextState.set_blendFuncSrc, ContextState.set_blendFuncDst;
    state_registers.
Qed.

(** X17.  The per-face stencil operation setters keep their siblings, on
    every device: each of [stencilFailFront], [stencilZFailFront],
    [stencilZPassFront] and their back-face counterparts leaves its own
    property reading the new value and the other five stencil operation
    properties, of both faces, reading what they read before. *)
Theorem stencil_op_setters_keep_siblings :
  forall (st : ContextState.State) (v : Z),
    let only setter own :=
      ContextState.sets_only setter VNum [own]
        (ContextState.without own ContextState.stencil_op_slots) st v
      /\ length (ContextState.without own ContextState.stencil_op_slots)
         = 5%nat in
    only ContextState.set_stencilFailFront RenderingContext.stencilFailFront
    /\ only ContextState.set_stencilZFailFront
         RenderingContext.stencilZFailFront
    /\ only ContextState.set_stencilZPassFront
         RenderingContext.stencilZPassFront
    /\ only ContextState.set_stencilFailBack RenderingContext.stencilFailBack
    /\ only ContextState.set_stencilZFailBack RenderingContext.stencilZFailBack
    /\ only ContextState.set_stencilZPassBack
         RenderingContext.stencilZPassBack.
Proof.
  intros st v only. unfold only, ContextState.sets_only.
  repeat first [split | apply List.Forall_cons | apply List.Forall_nil];
    try reflexivity;
    unfold ContextState.set_stencilFailFront,
      ContextState.set_stencilZFailFront, ContextState.set_stencilZPassFront,
      ContextState.set_stencilFailBack, ContextState.set_stencilZFailBack,
      ContextState.set_stencilZPassBack;
    state_registers.
Qed.

(** X18.  The face-less stencil setters cannot keep their siblings: the
    properties they read ([stencilFunc], [stencilRef], [stencilValueMask],
    [stencilFail], [stencilZFail], [stencilZPass]) have no getter, so on
    every device each of them makes one call, without any query, whose two
    sibling arguments are [undefined]. *)
Theorem faceless_stencil_setters_send_undefined :
  forall (st : ContextState.State) (v : Z),
    ContextState.issued (ContextState.set_stencilFunc v) st
    = [ContextState.stencilFunc (ContextState.defined (VNum v))
         ContextState.undefined ContextState.undefined]
    /\ ContextState.issued (ContextState.set_stencilRef v) st
       = [ContextState.stencilFunc ContextState.undefined
            (ContextState.defined (VNum v)) ContextState.undefined]
    /\ ContextState.issued (ContextState.set_stencilValueMask v) st
       = [ContextState.stencilFunc ContextState.undefined
            ContextState.undefined (ContextState.defined (VNum v))]
    /\ ContextState.issued (ContextState.set_stencilFail v) st
       = [ContextState.stencilOp (ContextState.defined (VNum v))
            ContextState.undefined ContextState.undefined]
    /\ ContextState.issued (ContextState.set_stencilZFail v) st
       = [ContextState.stencilOp ContextState.undefined
            (ContextState.defined (VNum v)) ContextState.undefined]
    /\ ContextState.issued (ContextState.set_stencilZPass v) st
       = [ContextState.stencilOp ContextState.undefined
            ContextState.undefined (ContextState.defined (VNum v))].
Proof.
  intros st v.
  repeat split; apply StateFacts.state_issued_spec; reflexivity.
Qed.
